(** * A shallow embedding of [mcp_server_simple.py]

    The program is a line-oriented JSON-RPC loop ([SimpleMCPServer.run])
    with three handlers and a lazily created Databricks client.  Python
    values coming out of [json.loads] are modelled by the type [json];
    dictionaries built by the handlers are [JObj] association lists in
    insertion order.  Everything the program does not define itself (the
    JSON parser, the process environment, the Databricks SDK) is gathered
    in the class [Externals]; every theorem holds for every instance. *)

From Stdlib Require Import List String Ascii ZArith Bool Lia.
From Stdlib Require Import Floats.SpecFloat.
From Stdlib Require Import Numbers.DecimalString.
Import ListNotations.
Local Open Scope string_scope.
Local Open Scope Z_scope.
Set Warnings "-register-all".

(** ** Python values *)

(** What [json.loads] can return: [None], [bool], [int], [float], [str],
    [list] and [dict] (string keys, insertion order).  A dict holds a
    key once; should a field list repeat a key, the first entry is the
    one a lookup finds. *)
Inductive json : Type :=
| JNull
| JBool (b : bool)
| JInt (z : Z)
| JFloat (f : spec_float)
| JStr (s : string)
| JArr (items : list json)
| JObj (fields : list (string * json)).

(** [d.get(key)] on the fields of a dict ([None] is the Python default
    and is rendered here as [option]). *)
Fixpoint assoc_get (key : string) (fields : list (string * json)) : option json :=
  match fields with
  | [] => None
  | (k, v) :: rest => if String.eqb k key then Some v else assoc_get key rest
  end.

(** [d[key] = v] on the fields of a dict: an existing key keeps its
    position, a new key goes last. *)
Fixpoint assoc_set (key : string) (v : json) (fields : list (string * json))
  : list (string * json) :=
  match fields with
  | [] => [(key, v)]
  | (k, w) :: rest =>
      if String.eqb k key then (k, v) :: rest else (k, w) :: assoc_set key v rest
  end.

(** Python truthiness, as used by [not x] and [x or y]. *)
Definition truthy (v : json) : bool :=
  match v with
  | JNull => false
  | JBool b => b
  | JInt z => negb (z =? 0)
  | JFloat (S754_zero _) => false
  | JFloat _ => true
  | JStr s => negb (String.eqb s "")
  | JArr items => match items with [] => false | _ => true end
  | JObj fields => match fields with [] => false | _ => true end
  end.

(** [x or y]. *)
Definition py_or (x y : json) : json := if truthy x then x else y.

(** [type(v).__name__]. *)
Definition py_type_name (v : json) : string :=
  match v with
  | JNull => "NoneType"
  | JBool _ => "bool"
  | JInt _ => "int"
  | JFloat _ => "float"
  | JStr _ => "str"
  | JArr _ => "list"
  | JObj _ => "dict"
  end.

(** [x == "literal"] for a string literal: only a [str] with the same
    characters compares equal. *)
Definition eq_str (v : json) (lit : string) : bool :=
  match v with
  | JStr s => String.eqb s lit
  | _ => false
  end.

(** Decimal rendering of a Python [int]. *)
Definition string_of_Z (z : Z) : string :=
  NilZero.string_of_int (Z.to_int z).

(** ** Exceptions *)

Inductive exn_class : Type :=
| ValueError
| RuntimeError
| AttributeError
| JSONDecodeError
| SdkError.

(** An instance of a subclass of [Exception]; [exn_msg] is [str(e)].
    [KeyboardInterrupt] and the other exceptions outside [Exception]
    end the process and are not part of the model. *)
Record exn : Type := Exn { exn_cls : exn_class; exn_msg : string }.

(** The message of the [AttributeError] raised by [v.get] when [v] is
    not a dict. *)
Definition no_attribute (v : json) (attr : string) : exn :=
  Exn AttributeError
      ("'" ++ py_type_name v ++ "' object has no attribute '" ++ attr ++ "'").

(** ** The outside world *)

(** The remote operations the seven tools perform through the client,
    with the arguments the tool functions pass on. *)
Inductive remote_call : Type :=
| CurrentUserMe
| ClustersList
| ClustersGet (cluster_id : json)
| JobsList
| JobsRunNow (job_id notebook_params : json)
| JobsGetRun (run_id : json)
| WorkspaceList (path : json).

(** Everything the program imports rather than defines.

    - [json_loads line] is [json.loads]; [None] stands for the call
      raising (a [JSONDecodeError]).
    - [os_getenv] is the environment of the process, [sdk_imported]
      says whether [from databricks.sdk import WorkspaceClient]
      succeeded (otherwise the module sets [WorkspaceClient = None]).
    - [new_client host token] is the constructor call
      [WorkspaceClient(host=..., token=...)]: it yields a handle or
      raises with the given message.
    - [sdk_try c rc] runs the remote call [rc] on the handle [c]
      together with the projection the tool function applies to its
      result inside the same [try] block.  [inl msg] means an exception
      [e] with [str(e) = msg] was raised there; [inr out] is the text
      obtained: the user name for [CurrentUserMe], the run id for
      [JobsRunNow], and the [json.dumps(..., indent=2)] text for the
      five listing and inspection calls.
    - [py_repr] is [repr] on floats, lists and dicts.

    [World] is the state of the remote workspace, threaded through the
    calls that can observe or change it. *)
Class Externals : Type := {
  World : Type;
  WorkspaceClient : Type;
  json_loads : string -> option json;
  os_getenv : string -> option string;
  sdk_imported : bool;
  new_client : string -> string -> World -> (string + WorkspaceClient) * World;
  sdk_try : WorkspaceClient -> remote_call -> World -> (string + string) * World;
  py_repr : json -> string
}.

(** The line feed written [\n] in the Python string literals. *)
Definition nl : string := String (ascii_of_nat 10) EmptyString.

(** [str.isspace] on one character (code points below 256). *)
Definition is_space (c : ascii) : bool :=
  let n := nat_of_ascii c in
  ((9 <=? n) && (n <=? 13) || (28 <=? n) && (n <=? 32)
   || (n =? 133) || (n =? 160))%nat.

(** [not line.strip()]: the line has only white space. *)
Fixpoint is_blank (line : string) : bool :=
  match line with
  | EmptyString => true
  | String c rest => is_space c && is_blank rest
  end.

(** ** Computations that may raise *)

(** A computation over a state [St] that either returns or raises. *)
Definition M (St A : Type) : Type := St -> (exn + A) * St.

Definition ret {St A : Type} (a : A) : M St A := fun p => (inr a, p).

Definition raise {St A : Type} (e : exn) : M St A := fun p => (inl e, p).

Definition bind {St A B : Type} (m : M St A) (f : A -> M St B) : M St B :=
  fun p =>
    match m p with
    | (inl e, p') => (inl e, p')
    | (inr a, p') => f a p'
    end.

(** [try: body / except Exception as e: handler]. *)
Definition try_except {St A : Type} (body : M St A) (handler : exn -> M St A)
  : M St A :=
  fun p =>
    match body p with
    | (inl e, p') => handler e p'
    | (inr a, p') => (inr a, p')
    end.

(** An expression that does not touch the state. *)
Definition lift {St A : Type} (r : exn + A) : M St A := fun p => (r, p).

Declare Scope py_scope.
Delimit Scope py_scope with py.
Notation "x <- m ;; k" := (bind m (fun x => k))
  (at level 100, m at next level, right associativity) : py_scope.
Notation "m ;; k" := (bind m (fun _ => k))
  (at level 100, right associativity) : py_scope.

(** [v.get(key, default)]: an [AttributeError] unless [v] is a dict. *)
Definition py_get (v : json) (key : string) (default : json) : exn + json :=
  match v with
  | JObj fields =>
      inr (match assoc_get key fields with Some x => x | None => default end)
  | _ => inl (no_attribute v "get")
  end.

(** [x is None]. *)
Definition is_none (v : json) : bool :=
  match v with JNull => true | _ => false end.

Section Server.

Context {E : Externals}.

(** [str(v)], as the f-strings apply it to a value taken from a
    request. *)
Definition py_str (v : json) : string :=
  match v with
  | JNull => "None"
  | JBool true => "True"
  | JBool false => "False"
  | JInt z => string_of_Z z
  | JStr s => s
  | _ => py_repr v
  end.

(** ** Program state *)

Record DatabricksConfig : Type := {
  host : string;
  token : string;
  workspace_id : option string
}.

(** The two attributes set by [SimpleMCPServer.__init__]. *)
Record SimpleMCPServer : Type := {
  client : option WorkspaceClient;
  config : option DatabricksConfig
}.

Definition __init__ : SimpleMCPServer := {| client := None; config := None |}.

(** What the process did to the outside world, oldest first:
    [_load_config] was entered, the constructor was called (and
    returned the handle [created] unless it raised), a remote call was
    made on a handle.  The trace is ghost state: the program never
    reads it. *)
Inductive event : Type :=
| EvLoadConfig
| EvNewClient (h t : string) (created : option WorkspaceClient)
| EvRemote (c : WorkspaceClient) (rc : remote_call).

Record process : Type := {
  self : SimpleMCPServer;
  world : World;
  stdout : list json;
  trace : list event
}.

Local Open Scope py_scope.

(** *** State accessors *)

Definition get_self : M process SimpleMCPServer := fun p => (inr (self p), p).

Definition set_config (c : option DatabricksConfig) : M process unit :=
  fun p =>
    (inr tt,
     {| self := {| client := client (self p); config := c |};
        world := world p; stdout := stdout p; trace := trace p |}).

Definition set_client (c : option WorkspaceClient) : M process unit :=
  fun p =>
    (inr tt,
     {| self := {| client := c; config := config (self p) |};
        world := world p; stdout := stdout p; trace := trace p |}).

Definition emit (ev : event) : M process unit :=
  fun p =>
    (inr tt,
     {| self := self p; world := world p; stdout := stdout p;
        trace := trace p ++ [ev] |}).

(** [print(json.dumps(response), flush=True)]: one line on standard
    output per call; the line is kept as the value it serialises.
    Every response is built from strings, integers and the request id,
    which [json.dumps] accepts, so the call does not raise. *)
Definition _send_response (response : json) : M process unit :=
  fun p =>
    (inr tt,
     {| self := self p; world := world p; stdout := stdout p ++ [response];
        trace := trace p |}).

(** The constructor call of the SDK. *)
Definition construct_client (h t : string) : M process WorkspaceClient :=
  fun p =>
    let (r, w) := new_client h t (world p) in
    (match r with
     | inl msg => inl (Exn SdkError msg)
     | inr c => inr c
     end,
     {| self := self p; world := w; stdout := stdout p;
        trace := trace p ++ [EvNewClient h t
                               match r with
                               | inl _ => None
                               | inr c => Some c
                               end] |}).

(** A remote call with its projection (see [sdk_try]). *)
Definition remote (c : WorkspaceClient) (rc : remote_call) : M process string :=
  fun p =>
    let (r, w) := sdk_try c rc (world p) in
    (match r with
     | inl msg => inl (Exn SdkError msg)
     | inr out => inr out
     end,
     {| self := self p; world := w; stdout := stdout p;
        trace := trace p ++ [EvRemote c rc] |}).

(** [self.client.<attr>]: an [AttributeError] when the client is
    [None]. *)
Definition the_client (attr : string) : M process WorkspaceClient :=
  s <- get_self ;;
  match client s with
  | Some c => ret c
  | None => raise (no_attribute JNull attr)
  end.

(** [self.config.host]. *)
Definition the_config_host : M process string :=
  s <- get_self ;;
  match config s with
  | Some cfg => ret (host cfg)
  | None => raise (no_attribute JNull "host")
  end.

(** ** The program *)

(** [not v] for the result of [os.getenv]. *)
Definition env_unset (v : option string) : bool :=
  match v with
  | None => true
  | Some s => String.eqb s ""
  end.

Definition env_value (v : option string) : string :=
  match v with Some s => s | None => "" end.

Definition _load_config : M process DatabricksConfig :=
  emit EvLoadConfig ;;
  let host_ := os_getenv "DATABRICKS_HOST" in
  let token_ := os_getenv "DATABRICKS_TOKEN" in
  let workspace_id_ := os_getenv "DATABRICKS_WORKSPACE_ID" in
  if env_unset host_ || env_unset token_ then
    raise (Exn ValueError
      "DATABRICKS_HOST and DATABRICKS_TOKEN environment variables are required")
  else
    ret {| host := env_value host_; token := env_value token_;
           workspace_id := workspace_id_ |}.

Definition _ensure_client : M process unit :=
  s <- get_self ;;
  match client s with
  | None =>
      if negb sdk_imported then
        raise (Exn RuntimeError "Databricks SDK not installed")
      else
        cfg <- _load_config ;;
        set_config (Some cfg) ;;
        c <- construct_client (host cfg) (token cfg) ;;
        set_client (Some c)
  | Some _ => ret tt
  end.

(** *** Responses *)

Definition _handle_initialize (params request_id : json) : json :=
  let request_id := if is_none request_id then JInt 0 else request_id in
  JObj [("jsonrpc", JStr "2.0");
        ("id", request_id);
        ("result",
         JObj [("protocolVersion", JStr "2024-11-05");
               ("capabilities", JObj [("tools", JObj [])]);
               ("serverInfo",
                JObj [("name", JStr "databricks-mcp");
                      ("version", JStr "1.0.0")])])].

(** One entry of the tool list. *)
Definition tool (name description : string)
  (properties : list (string * json)) (required : list json) : json :=
  JObj [("name", JStr name);
        ("description", JStr description);
        ("inputSchema",
         JObj [("type", JStr "object");
               ("properties", JObj properties);
               ("required", JArr required)])].

Definition string_property (description : string) : json :=
  JObj [("type", JStr "string"); ("description", JStr description)].

Definition tools : list json :=
  [ tool "databricks_test_connection"
         "Test connection to Databricks workspace" [] [];
    tool "databricks_list_clusters" "List all Databricks clusters" [] [];
    tool "databricks_get_cluster" "Get details of a specific cluster"
         [("cluster_id", string_property "The cluster ID to get details for")]
         [JStr "cluster_id"];
    tool "databricks_list_jobs" "List all Databricks jobs" [] [];
    tool "databricks_run_job" "Run a Databricks job"
         [("job_id", string_property "The job ID to run");
          ("parameters",
           JObj [("type", JStr "object");
                 ("description", JStr "Job parameters (optional)")])]
         [JStr "job_id"];
    tool "databricks_get_job_run" "Get details of a job run"
         [("run_id", string_property "The run ID to get details for")]
         [JStr "run_id"];
    tool "databricks_list_workspace" "List workspace contents"
         [("path",
           JObj [("type", JStr "string");
                 ("description", JStr "Workspace path to list (default: /)");
                 ("default", JStr "/")])]
         [] ].

Definition _handle_list_tools (params request_id : json) : json :=
  let request_id := if is_none request_id then JInt 1 else request_id in
  JObj [("jsonrpc", JStr "2.0");
        ("id", request_id);
        ("result", JObj [("tools", JArr tools)])].

(** *** The seven tools *)

(** [try: body / except Exception as e: raise RuntimeError(prefix + str(e))]. *)
Definition rewrap (prefix : string) (body : M process string) : M process string :=
  try_except body
    (fun e => raise (Exn RuntimeError (prefix ++ exn_msg e))).

Definition _test_connection : M process string :=
  rewrap "Connection failed: "
    (c <- the_client "current_user" ;;
     user_name <- remote c CurrentUserMe ;;
     h <- the_config_host ;;
     ret ("Successfully connected to Databricks workspace!" ++ nl
          ++ "Host: " ++ h ++ nl ++ "User: " ++ user_name)).

Definition _list_clusters : M process string :=
  rewrap "Error listing clusters: "
    (c <- the_client "clusters" ;; remote c ClustersList).

Definition _get_cluster (cluster_id : json) : M process string :=
  rewrap "Error getting cluster: "
    (c <- the_client "clusters" ;; remote c (ClustersGet cluster_id)).

Definition _list_jobs : M process string :=
  rewrap "Error listing jobs: "
    (c <- the_client "jobs" ;; remote c JobsList).

Definition _run_job (job_id parameters : json) : M process string :=
  rewrap "Error running job: "
    (c <- the_client "jobs" ;;
     run_id <- remote c (JobsRunNow job_id (py_or parameters (JObj []))) ;;
     ret ("Job run started successfully!" ++ nl ++ "Run ID: " ++ run_id ++ nl
          ++ "Job ID: " ++ py_str job_id)).

Definition _get_job_run (run_id : json) : M process string :=
  rewrap "Error getting job run: "
    (c <- the_client "jobs" ;; remote c (JobsGetRun run_id)).

Definition _list_workspace (path : json) : M process string :=
  rewrap "Error listing workspace: "
    (c <- the_client "workspace" ;; remote c (WorkspaceList path)).

(** *** The tool-call handler *)

Definition result_response (request_id : json) (result : string) : json :=
  JObj [("jsonrpc", JStr "2.0");
        ("id", request_id);
        ("result",
         JObj [("content",
                JArr [JObj [("type", JStr "text"); ("text", JStr result)]])])].

Definition error_response (request_id : json) (code : Z) (message : string)
  : json :=
  JObj [("jsonrpc", JStr "2.0");
        ("id", request_id);
        ("error", JObj [("code", JInt code); ("message", JStr message)])].

(** The [if]/[elif] chain on the tool name. *)
Definition dispatch (tool_name arguments : json) : M process string :=
  if eq_str tool_name "databricks_test_connection" then _test_connection
  else if eq_str tool_name "databricks_list_clusters" then _list_clusters
  else if eq_str tool_name "databricks_get_cluster" then
    cluster_id <- lift (py_get arguments "cluster_id" JNull) ;;
    _get_cluster cluster_id
  else if eq_str tool_name "databricks_list_jobs" then _list_jobs
  else if eq_str tool_name "databricks_run_job" then
    job_id <- lift (py_get arguments "job_id" JNull) ;;
    parameters <- lift (py_get arguments "parameters" JNull) ;;
    _run_job job_id parameters
  else if eq_str tool_name "databricks_get_job_run" then
    run_id <- lift (py_get arguments "run_id" JNull) ;;
    _get_job_run run_id
  else if eq_str tool_name "databricks_list_workspace" then
    path <- lift (py_get arguments "path" (JStr "/")) ;;
    _list_workspace path
  else raise (Exn ValueError ("Unknown tool: " ++ py_str tool_name)).

(** The handler of the outer [except] first formats the log line,
    which evaluates [params.get('name')] once more, outside any
    [try]. *)
Definition _handle_call_tool (params request_id : json) : M process json :=
  try_except
    (tool_name <- lift (py_get params "name" JNull) ;;
     arguments <- lift (py_get params "arguments" (JObj [])) ;;
     _ensure_client ;;
     result <- dispatch tool_name arguments ;;
     let request_id := if is_none request_id then JInt 2 else request_id in
     ret (result_response request_id result))
    (fun e =>
       _ <- lift (py_get params "name" JNull) ;;
       let request_id := if is_none request_id then JInt 3 else request_id in
       ret (error_response request_id (-32603) (exn_msg e))).

(** *** The read loop *)

(** The [if]/[elif] chain on the method, which builds the response. *)
Definition route (method params request_id : json) : M process json :=
  if eq_str method "initialize" then
    ret (_handle_initialize params request_id)
  else if eq_str method "tools/list" then
    ret (_handle_list_tools params request_id)
  else if eq_str method "tools/call" then
    _handle_call_tool params request_id
  else
    ret (error_response (py_or request_id (JInt 0)) (-32601)
           ("Method not found: " ++ py_str method)).

(** One turn of [while True] on a line returned by [input()].  Both
    [except] clauses of the inner [try] log and [continue]. *)
Definition handle_line (line : string) : M process unit :=
  if is_blank line then ret tt
  else
    try_except
      (request <- match json_loads line with
                  | Some v => ret v
                  | None => raise (Exn JSONDecodeError "Invalid JSON received")
                  end ;;
       method <- lift (py_get request "method" JNull) ;;
       params <- lift (py_get request "params" (JObj [])) ;;
       request_id <- lift (py_get request "id" JNull) ;;
       response <- route method params request_id ;;
       _send_response response)
      (fun _ => ret tt).

(** [run] on the lines standard input delivers before end of input;
    the [EOFError] of [input()] then ends the loop. *)
Fixpoint run (lines : list string) : M process unit :=
  match lines with
  | [] => ret tt
  | line :: rest => handle_line line ;; run rest
  end.

(** The process [main] starts: a fresh server and nothing written. *)
Definition main (w : World) : process :=
  {| self := __init__; world := w; stdout := []; trace := [] |}.

End Server.

(** ** A parser and a scripted SDK for running the program

    [BasicJson.loads] follows [json.loads] on the documents made of
    objects, arrays, strings with the two-character escapes, integers,
    [true], [false], [null], [NaN] and [Infinity]; it rejects what
    [json.loads] rejects there.  Fractions, exponents and [\u] escapes
    are outside the fragment (and rejected).  It serves to run the
    program on concrete lines; no theorem depends on it. *)
Module BasicJson.

Definition dq : ascii := ascii_of_nat 34.
Definition backslash : ascii := ascii_of_nat 92.

(** The white space [json.loads] skips. *)
Definition is_ws (c : ascii) : bool :=
  let n := nat_of_ascii c in
  ((n =? 32) || (n =? 9) || (n =? 10) || (n =? 13))%nat.

Fixpoint skip_ws (cs : list ascii) : list ascii :=
  match cs with
  | c :: rest => if is_ws c then skip_ws rest else cs
  | [] => []
  end.

Definition is_digit (c : ascii) : bool :=
  let n := nat_of_ascii c in ((48 <=? n) && (n <=? 57))%nat.

Definition digit_value (c : ascii) : Z := Z.of_nat (nat_of_ascii c) - 48.

(** The character an escape stands for. *)
Definition unescape (c : ascii) : option ascii :=
  let n := nat_of_ascii c in
  if (n =? 34)%nat then Some dq
  else if (n =? 92)%nat then Some backslash
  else if (n =? 47)%nat then Some "/"%char
  else if (n =? 98)%nat then Some (ascii_of_nat 8)
  else if (n =? 102)%nat then Some (ascii_of_nat 12)
  else if (n =? 110)%nat then Some (ascii_of_nat 10)
  else if (n =? 114)%nat then Some (ascii_of_nat 13)
  else if (n =? 116)%nat then Some (ascii_of_nat 9)
  else None.

(** The characters of a string literal after its opening quote, up to
    and including the closing quote. *)
Fixpoint scan_string (cs : list ascii) : option (string * list ascii) :=
  match cs with
  | [] => None
  | c :: rest =>
      if Ascii.eqb c dq then Some (EmptyString, rest)
      else if Ascii.eqb c backslash then
        match rest with
        | e :: rest' =>
            match unescape e, scan_string rest' with
            | Some x, Some (s, tl) => Some (String x s, tl)
            | _, _ => None
            end
        | [] => None
        end
      else if (nat_of_ascii c <? 32)%nat then None
      else
        match scan_string rest with
        | Some (s, tl) => Some (String c s, tl)
        | None => None
        end
  end.

Fixpoint scan_digits (acc : Z) (cs : list ascii) : Z * list ascii :=
  match cs with
  | c :: rest =>
      if is_digit c then scan_digits (10 * acc + digit_value c) rest
      else (acc, cs)
  | [] => (acc, [])
  end.

(** What may not follow the integer part inside the fragment. *)
Definition starts_fraction (cs : list ascii) : bool :=
  match cs with
  | c :: _ => Ascii.eqb c "." || Ascii.eqb c "e" || Ascii.eqb c "E"
  | [] => false
  end.

(** The integer part: a lone [0], or a non-zero digit and more digits. *)
Definition scan_natural (cs : list ascii) : option (Z * list ascii) :=
  match cs with
  | c :: rest =>
      if Ascii.eqb c "0" then
        if starts_fraction rest then None else Some (0, rest)
      else if is_digit c then
        let (n, tl) := scan_digits (digit_value c) rest in
        if starts_fraction tl then None else Some (n, tl)
      else None
  | [] => None
  end.

Fixpoint strip_prefix (word : string) (cs : list ascii) : option (list ascii) :=
  match word, cs with
  | EmptyString, _ => Some cs
  | String w word', c :: rest =>
      if Ascii.eqb w c then strip_prefix word' rest else None
  | String _ _, [] => None
  end.

Definition scan_literal (cs : list ascii) : option (json * list ascii) :=
  match strip_prefix "null" cs with Some tl => Some (JNull, tl) | None =>
  match strip_prefix "true" cs with Some tl => Some (JBool true, tl) | None =>
  match strip_prefix "false" cs with Some tl => Some (JBool false, tl) | None =>
  match strip_prefix "NaN" cs with Some tl => Some (JFloat S754_nan, tl) | None =>
  match strip_prefix "Infinity" cs with
  | Some tl => Some (JFloat (S754_infinity false), tl)
  | None =>
  match strip_prefix "-Infinity" cs with
  | Some tl => Some (JFloat (S754_infinity true), tl)
  | None =>
  match cs with
  | c :: rest =>
      if Ascii.eqb c "-" then
        match scan_natural rest with
        | Some (n, tl) => Some (JInt (- n), tl)
        | None => None
        end
      else
        match scan_natural cs with
        | Some (n, tl) => Some (JInt n, tl)
        | None => None
        end
  | [] => None
  end end end end end end end.

(** [scan_value] reads one value at the head of [cs]; [scan_items]
    and [scan_members] read the rest of an array and of an object once
    the first item or key is known to be there. *)
Fixpoint scan_value (fuel : nat) (cs : list ascii) : option (json * list ascii) :=
  match fuel with
  | O => None
  | S fuel' =>
      match cs with
      | [] => None
      | c :: rest =>
          if Ascii.eqb c dq then
            match scan_string rest with
            | Some (s, tl) => Some (JStr s, tl)
            | None => None
            end
          else if Ascii.eqb c "[" then
            match skip_ws rest with
            | d :: tl =>
                if Ascii.eqb d "]" then Some (JArr [], tl)
                else scan_items fuel' [] (d :: tl)
            | [] => None
            end
          else if Ascii.eqb c "{" then
            match skip_ws rest with
            | d :: tl =>
                if Ascii.eqb d "}" then Some (JObj [], tl)
                else scan_members fuel' [] (d :: tl)
            | [] => None
            end
          else scan_literal cs
      end
  end
with scan_items (fuel : nat) (acc : list json) (cs : list ascii)
  : option (json * list ascii) :=
  match fuel with
  | O => None
  | S fuel' =>
      match scan_value fuel' cs with
      | Some (v, tl) =>
          match skip_ws tl with
          | d :: tl' =>
              if Ascii.eqb d "]" then Some (JArr (rev (v :: acc)), tl')
              else if Ascii.eqb d "," then
                scan_items fuel' (v :: acc) (skip_ws tl')
              else None
          | [] => None
          end
      | None => None
      end
  end
with scan_members (fuel : nat) (acc : list (string * json)) (cs : list ascii)
  : option (json * list ascii) :=
  match fuel with
  | O => None
  | S fuel' =>
      match cs with
      | q :: rest =>
          if Ascii.eqb q dq then
            match scan_string rest with
            | Some (key, tl) =>
                match skip_ws tl with
                | colon :: tl' =>
                    if Ascii.eqb colon ":" then
                      match scan_value fuel' (skip_ws tl') with
                      | Some (v, tl'') =>
                          let acc' := assoc_set key v acc in
                          match skip_ws tl'' with
                          | d :: tl3 =>
                              if Ascii.eqb d "}" then Some (JObj acc', tl3)
                              else if Ascii.eqb d "," then
                                scan_members fuel' acc' (skip_ws tl3)
                              else None
                          | [] => None
                          end
                      | None => None
                      end
                    else None
                | [] => None
                end
            | None => None
            end
          else None
      | [] => None
      end
  end.

(** [json.loads]: one value, white space around it, nothing else. *)
Definition loads (s : string) : option json :=
  let cs := list_ascii_of_string s in
  match scan_value (S (2 * List.length cs)) (skip_ws cs) with
  | Some (v, tl) => match skip_ws tl with [] => Some v | _ => None end
  | None => None
  end.

(** Rocq string literals cannot hold a bare double quote: the example
    lines are written with apostrophes and [quoted] puts the double
    quotes back. *)
Fixpoint quoted (s : string) : string :=
  match s with
  | EmptyString => EmptyString
  | String c rest => String (if Ascii.eqb c "'" then dq else c) (quoted rest)
  end.

End BasicJson.

(** A workspace that answers every call.  The world counts the calls
    made so far and a handle is the count at its creation, so two
    handles created one after the other differ. *)
Module Demo.

Definition repr_float (f : spec_float) : string :=
  match f with
  | S754_zero false => "0.0"
  | S754_zero true => "-0.0"
  | S754_infinity false => "inf"
  | S754_infinity true => "-inf"
  | S754_nan => "nan"
  | S754_finite _ _ _ => "<float>"
  end.

(** [repr] for values whose strings need no escaping. *)
Fixpoint repr (v : json) : string :=
  match v with
  | JNull => "None"
  | JBool true => "True"
  | JBool false => "False"
  | JInt z => string_of_Z z
  | JFloat f => repr_float f
  | JStr s => "'" ++ s ++ "'"
  | JArr items =>
      "[" ++ (fix go (l : list json) : string :=
                match l with
                | [] => ""
                | x :: rest =>
                    match rest with
                    | [] => repr x
                    | _ :: _ => repr x ++ ", " ++ go rest
                    end
                end) items ++ "]"
  | JObj fields =>
      "{" ++ (fix go (l : list (string * json)) : string :=
                match l with
                | [] => ""
                | (k, x) :: rest =>
                    match rest with
                    | [] => "'" ++ k ++ "': " ++ repr x
                    | _ :: _ => "'" ++ k ++ "': " ++ repr x ++ ", " ++ go rest
                    end
                end) fields ++ "}"
  end.

Definition answer (rc : remote_call) : string :=
  match rc with
  | CurrentUserMe => "alice@example.com"
  | JobsRunNow _ _ => "42"
  | ClustersList | JobsList | WorkspaceList _ => "[]"
  | ClustersGet _ | JobsGetRun _ => "{}"
  end.

Definition sdk (env : string -> option string) (imported : bool) : Externals :=
  {| World := nat;
     WorkspaceClient := nat;
     json_loads := BasicJson.loads;
     os_getenv := env;
     sdk_imported := imported;
     new_client := fun _ _ w => (inr w, S w);
     sdk_try := fun _ rc w => (inr (answer rc), S w);
     py_repr := repr |}.

(** No variable is set. *)
Definition no_env : string -> option string := fun _ => None.

(** Host and token are set. *)
Definition full_env (name : string) : option string :=
  if String.eqb name "DATABRICKS_HOST" then Some "https://example.cloud.databricks.com"
  else if String.eqb name "DATABRICKS_TOKEN" then Some "dapi-token"
  else None.

(** Three installations: the SDK without credentials, no SDK at all,
    and a working one. *)
Definition without_credentials : Externals := sdk no_env true.
Definition without_sdk : Externals := sdk no_env false.
Definition configured : Externals := sdk full_env true.

(** The process as [main] starts it, in any of the three. *)
Definition boot {env : string -> option string} {imported : bool}
  : @process (sdk env imported) :=
  @main (sdk env imported) 0%nat.

(** Input lines. *)
Definition line_list_tools : string :=
  BasicJson.quoted "{'jsonrpc':'2.0','id':5,'method':'tools/list','params':{}}".

Definition line_initialize : string :=
  BasicJson.quoted "{'jsonrpc':'2.0','method':'initialize','params':{}}".

Definition line_ping : string :=
  BasicJson.quoted "{'jsonrpc':'2.0','id':false,'method':'ping'}".

Definition line_array : string := "[]".

Definition line_garbage : string := "{not json".

Definition line_test_connection : string :=
  BasicJson.quoted
    "{'id':7,'method':'tools/call','params':{'name':'databricks_test_connection'}}".

Definition line_list_jobs : string :=
  BasicJson.quoted
    "{'id':8,'method':'tools/call','params':{'name':'databricks_list_jobs','arguments':{}}}".

(** The params of three tool calls: a tool that does not exist, and
    a known tool whose arguments are a list instead of a dict. *)
Definition params_foo : list (string * json) := [("name", JStr "foo")].

Definition params_bad_arguments : list (string * json) :=
  [("name", JStr "databricks_get_cluster"); ("arguments", JArr [])].

End Demo.

(** ** Reading responses and traces *)

(** [v[key]] when [v] is a dict that has the key. *)
Definition field (key : string) (v : json) : option json :=
  match v with
  | JObj fields => assoc_get key fields
  | _ => None
  end.

Definition is_dict (v : json) : bool :=
  match v with JObj _ => true | _ => false end.

(** [response["result"]["tools"][i]["name"]] for every [i]. *)
Definition tool_names (response : json) : option (list (option json)) :=
  match field "result" response with
  | Some result =>
      match field "tools" result with
      | Some (JArr ts) => Some (map (field "name") ts)
      | _ => None
      end
  | None => None
  end.

(** [response["error"]["code"]]. *)
Definition error_code (response : json) : option json :=
  match field "error" response with
  | Some e => field "code" e
  | None => None
  end.

(** [response["error"]["message"]]. *)
Definition error_message (response : json) : option json :=
  match field "error" response with
  | Some e => field "message" e
  | None => None
  end.

(** [needle in hay]. *)
Fixpoint is_infix (needle hay : string) : bool :=
  String.prefix needle hay
  || match hay with
     | EmptyString => false
     | String _ hay' => is_infix needle hay'
     end.

(** The names the [if]/[elif] chain of the tool-call handler knows. *)
Definition known_tools : list string :=
  [ "databricks_test_connection"; "databricks_list_clusters";
    "databricks_get_cluster"; "databricks_list_jobs"; "databricks_run_job";
    "databricks_get_job_run"; "databricks_list_workspace" ].

Definition is_known_tool (name : string) : bool :=
  existsb (String.eqb name) known_tools.

Section Observations.

Context {E : Externals}.

(** The process after one more line was written. *)
Definition wrote (p : process) (response : json) : process :=
  {| self := self p; world := world p; stdout := stdout p ++ [response];
     trace := trace p |}.

(** The request fields as [run] reads them. *)
Definition method_of (fields : list (string * json)) : json :=
  match assoc_get "method" fields with Some v => v | None => JNull end.

Definition params_of (fields : list (string * json)) : json :=
  match assoc_get "params" fields with Some v => v | None => JObj [] end.

Definition id_of (fields : list (string * json)) : json :=
  match assoc_get "id" fields with Some v => v | None => JNull end.

(** The method is none of the three the loop routes. *)
Definition unknown_method (method : json) : bool :=
  negb (eq_str method "initialize") && negb (eq_str method "tools/list")
  && negb (eq_str method "tools/call").

(** The two values the tool-call handler reads from its params. *)
Definition name_of (fields : list (string * json)) : json :=
  match assoc_get "name" fields with Some v => v | None => JNull end.

Definition arguments_of (fields : list (string * json)) : json :=
  match assoc_get "arguments" fields with Some v => v | None => JObj [] end.

(** The id of a response when the request carried [request_id] and
    the handler falls back to [fallback]. *)
Definition id_or (fallback : Z) (request_id : json) : json :=
  if is_none request_id then JInt fallback else request_id.

(** The number of handles the constructor returned. *)
Fixpoint creations (tr : list event) : nat :=
  match tr with
  | [] => O
  | EvNewClient _ _ (Some _) :: rest => S (creations rest)
  | _ :: rest => creations rest
  end.

(** The event is a remote call made on the handle [c]. *)
Definition on_client (c : WorkspaceClient) (ev : event) : Prop :=
  exists rc, ev = EvRemote c rc.

(** The process after the events [evs], with nothing else changed. *)
Definition logged (p : process) (evs : list event) : process :=
  {| self := self p; world := world p; stdout := stdout p;
     trace := trace p ++ evs |}.

(** [p'] comes from [p] by remote calls on the client of [p]: the
    server object and the output are the same. *)
Definition called_remote (p p' : process) : Prop :=
  self p' = self p /\ stdout p' = stdout p /\
  exists evs,
    trace p' = (trace p ++ evs)%list /\
    Forall (fun ev => exists c, client (self p) = Some c /\ on_client c ev) evs.

(** [p'] comes from [p] by writing responses and by remote calls on
    the handle [c]: the server object is the same and nothing was
    loaded or created. *)
Definition served (c : WorkspaceClient) (p p' : process) : Prop :=
  self p' = self p /\
  exists evs, trace p' = (trace p ++ evs)%list /\ Forall (on_client c) evs.

(** The trace shows as many created handles as the server holds. *)
Definition creations_match (p : process) : Prop :=
  creations (trace p)
  = match client (self p) with Some _ => 1%nat | None => 0%nat end.

(** The state a computation ends in. *)
Definition after {A : Type} (m : M process A) (p : process) : process :=
  snd (m p).

End Observations.

(** ** The tool catalogue and what a tool call amounts to *)

(** The name of an entry of the tool list. *)
Definition descriptor_name (d : json) : option string :=
  match field "name" d with
  | Some (JStr s) => Some s
  | _ => None
  end.

(** The names [tools/list] advertises, in order. *)
Definition advertised : list string :=
  flat_map (fun d => match descriptor_name d with
                     | Some s => [s]
                     | None => []
                     end) tools.

Definition is_advertised (name : string) : bool :=
  existsb (String.eqb name) advertised.

(** The argument names a tool declares under
    [inputSchema.properties]. *)
Definition declared_properties (name : string) : list string :=
  match find (fun d => match descriptor_name d with
                       | Some s => String.eqb s name
                       | None => false
                       end) tools with
  | Some d =>
      match field "inputSchema" d with
      | Some schema =>
          match field "properties" schema with
          | Some (JObj props) => map fst props
          | _ => []
          end
      | None => []
      end
  | None => []
  end.

(** [arguments.get(key, default)] on the fields of a dict. *)
Definition argument (key : string) (default : json)
  (fields : list (string * json)) : json :=
  match assoc_get key fields with Some v => v | None => default end.

(** The remote call each tool function makes for the arguments it is
    given. *)
Definition remote_call_of (name : string) (fields : list (string * json))
  : remote_call :=
  if String.eqb name "databricks_test_connection" then CurrentUserMe
  else if String.eqb name "databricks_list_clusters" then ClustersList
  else if String.eqb name "databricks_get_cluster" then
    ClustersGet (argument "cluster_id" JNull fields)
  else if String.eqb name "databricks_list_jobs" then JobsList
  else if String.eqb name "databricks_run_job" then
    JobsRunNow (argument "job_id" JNull fields)
               (py_or (argument "parameters" JNull fields) (JObj []))
  else if String.eqb name "databricks_get_job_run" then
    JobsGetRun (argument "run_id" JNull fields)
  else WorkspaceList (argument "path" (JStr "/") fields).

(** The text each tool function puts in front of the message of an
    exception raised in its [try] block. *)
Definition failure_prefix (name : string) : string :=
  if String.eqb name "databricks_test_connection" then "Connection failed: "
  else if String.eqb name "databricks_list_clusters" then
    "Error listing clusters: "
  else if String.eqb name "databricks_get_cluster" then
    "Error getting cluster: "
  else if String.eqb name "databricks_list_jobs" then "Error listing jobs: "
  else if String.eqb name "databricks_run_job" then "Error running job: "
  else if String.eqb name "databricks_get_job_run" then
    "Error getting job run: "
  else "Error listing workspace: ".

(** The tool takes values from [arguments]. *)
Definition takes_arguments (name : string) : bool :=
  String.eqb name "databricks_get_cluster"
  || String.eqb name "databricks_run_job"
  || String.eqb name "databricks_get_job_run"
  || String.eqb name "databricks_list_workspace".

(** A response as the loop writes it: version 2.0, an id that is not
    [None], and either a result object or an error with one of the two
    codes and a message, never both. *)
Definition well_formed (r : json) : bool :=
  match field "jsonrpc" r, field "id" r, field "result" r, field "error" r with
  | Some (JStr v), Some i, Some res, None =>
      String.eqb v "2.0" && negb (is_none i) && is_dict res
  | Some (JStr v), Some i, None, Some err =>
      String.eqb v "2.0" && negb (is_none i)
      && match field "code" err, field "message" err with
         | Some (JInt c), Some (JStr _) => (c =? -32601) || (c =? -32603)
         | _, _ => false
         end
  | _, _, _, _ => false
  end.

Section Sessions.

Context {E : Externals}.

(** The text a tool returns when its remote call answered [out], on
    a server whose configuration has the host [h]. *)
Definition result_text (name : string) (fields : list (string * json))
  (h out : string) : string :=
  if String.eqb name "databricks_test_connection" then
    "Successfully connected to Databricks workspace!" ++ nl
    ++ "Host: " ++ h ++ nl ++ "User: " ++ out
  else if String.eqb name "databricks_run_job" then
    "Job run started successfully!" ++ nl ++ "Run ID: " ++ out ++ nl
    ++ "Job ID: " ++ py_str (argument "job_id" JNull fields)
  else out.

(** The process after the remote call [rc] was made on [c] and left
    the world [w]. *)
Definition called (p : process) (c : WorkspaceClient) (rc : remote_call)
  (w : World) : process :=
  {| self := self p; world := w; stdout := stdout p;
     trace := trace p ++ [EvRemote c rc] |}.

(** The configuration [_load_config] builds from the environment. *)
Definition env_config : DatabricksConfig :=
  {| host := env_value (os_getenv "DATABRICKS_HOST");
     token := env_value (os_getenv "DATABRICKS_TOKEN");
     workspace_id := os_getenv "DATABRICKS_WORKSPACE_ID" |}.

(** Host and token are both set and not empty. *)
Definition credentials_set : bool :=
  negb (env_unset (os_getenv "DATABRICKS_HOST")
        || env_unset (os_getenv "DATABRICKS_TOKEN")).

(** The process after [_ensure_client] loaded the configuration and
    the constructor left the world [w], returning [created] or
    raising. *)
Definition attempted (p : process) (created : option WorkspaceClient)
  (w : World) : process :=
  {| self := {| client := created; config := Some env_config |};
     world := w; stdout := stdout p;
     trace := (trace p ++ [EvLoadConfig])
              ++ [EvNewClient (host env_config) (token env_config) created] |}.

(** A stored configuration is the one of the environment, and a
    server that holds a client holds a configuration. *)
Definition config_sound (p : process) : Prop :=
  (config (self p) = None \/ config (self p) = Some env_config) /\
  (client (self p) <> None -> config (self p) <> None).

(** An event of a server that has no client yet: a look at the
    environment, or a constructor call with the credentials of the
    environment that raised. *)
Definition is_attempt (ev : event) : Prop :=
  ev = EvLoadConfig
  \/ ev = EvNewClient (host env_config) (token env_config) None.

(** The events come in this order: failed attempts, then the one
    constructor call that returned the handle the server holds, then
    remote calls on that handle. *)
Definition trace_disciplined (p : process) : Prop :=
  match client (self p) with
  | None => Forall is_attempt (trace p)
  | Some c =>
      exists pre post,
        trace p
        = (pre ++ EvNewClient (host env_config) (token env_config) (Some c)
                 :: post)%list
        /\ Forall is_attempt pre /\ Forall (on_client c) post
  end.

(** The line is a request: not blank, and JSON for an object. *)
Definition is_request (line : string) : bool :=
  negb (is_blank line)
  && match json_loads line with
     | Some (JObj _) => true
     | _ => false
     end.

End Sessions.

(** More input for the scripted SDK. *)
Module Samples.

(** Host and token are set, the token to the empty string. *)
Definition empty_token_env (name : string) : option string :=
  if String.eqb name "DATABRICKS_HOST" then Some "https://example.cloud.databricks.com"
  else if String.eqb name "DATABRICKS_TOKEN" then Some ""
  else None.

Definition with_empty_token : Externals := Demo.sdk empty_token_env true.

(** An SDK whose constructor and calls all raise. *)
Definition failing : Externals :=
  {| World := nat;
     WorkspaceClient := nat;
     json_loads := BasicJson.loads;
     os_getenv := Demo.full_env;
     sdk_imported := true;
     new_client := fun _ _ w => (inl "cannot configure default credentials", S w);
     sdk_try := fun _ _ w => (inl "connection refused", S w);
     py_repr := Demo.repr |}.

(** A process that holds the handle [c], as the first tool call
    leaves it. *)
Definition connected {X : Externals} (c : WorkspaceClient) (w : World)
  : process :=
  {| self := {| client := Some c; config := Some env_config |};
     world := w; stdout := [];
     trace := [EvLoadConfig;
               EvNewClient (host env_config) (token env_config) (Some c)] |}.

Definition online : @process Demo.configured :=
  @connected Demo.configured 0%nat 1%nat.

Definition offline : @process failing := @connected failing 0%nat 1%nat.

Definition line_call_null_params : string :=
  BasicJson.quoted "{'id':3,'method':'tools/call','params':null}".

Definition lines_mixed : list string :=
  [ ""; Demo.line_garbage; Demo.line_initialize; "   "; Demo.line_array;
    Demo.line_list_tools ].

End Samples.

(** * Properties *)

Section Theory.

Context {E : Externals}.

Local Open Scope py_scope.

(** ** The read loop, case by case *)

Lemma send_response_wrote (response : json) (p : process) :
  _send_response response p = (inr tt, wrote p response).
Proof. reflexivity. Qed.

Lemma handle_line_blank (line : string) (p : process) :
  is_blank line = true -> handle_line line p = (inr tt, p).
Proof. intros Hb. unfold handle_line. rewrite Hb. reflexivity. Qed.

Lemma handle_line_invalid (line : string) (p : process) :
  json_loads line = None -> handle_line line p = (inr tt, p).
Proof.
  intros Hj. unfold handle_line.
  destruct (is_blank line); [reflexivity|].
  unfold try_except, bind. rewrite Hj. reflexivity.
Qed.

Lemma handle_line_not_dict (line : string) (v : json) (p : process) :
  json_loads line = Some v -> is_dict v = false ->
  handle_line line p = (inr tt, p).
Proof.
  intros Hj Hd. unfold handle_line.
  destruct (is_blank line); [reflexivity|].
  unfold try_except, bind. rewrite Hj.
  destruct v; try discriminate Hd; reflexivity.
Qed.

(** On a line that parses to an object the turn is the routed
    handler followed by [_send_response], unless the handler raises. *)
Lemma handle_line_request (line : string) (fields : list (string * json))
  (p : process) :
  is_blank line = false -> json_loads line = Some (JObj fields) ->
  handle_line line p =
  match route (method_of fields) (params_of fields) (id_of fields) p with
  | (inr response, p') => (inr tt, wrote p' response)
  | (inl _, p') => (inr tt, p')
  end.
Proof.
  intros Hb Hj. unfold handle_line. rewrite Hb.
  unfold try_except, bind. rewrite Hj. cbn.
  fold (method_of fields) (params_of fields) (id_of fields).
  destruct (route _ _ _ p) as [[e | response] p']; reflexivity.
Qed.

Lemma route_initialize (method params request_id : json) (p : process) :
  eq_str method "initialize" = true ->
  route method params request_id p
  = (inr (_handle_initialize params request_id), p).
Proof. intros H. unfold route. rewrite H. reflexivity. Qed.

Lemma eq_str_inj (v : json) (a b : string) :
  eq_str v a = true -> eq_str v b = true -> a = b.
Proof.
  destruct v; try discriminate. cbn. intros Ha Hb.
  apply String.eqb_eq in Ha, Hb. congruence.
Qed.

Lemma eq_str_other (v : json) (a b : string) :
  eq_str v a = true -> a <> b -> eq_str v b = false.
Proof.
  intros Ha Hab. destruct (eq_str v b) eqn:Hb; [|reflexivity].
  exfalso. apply Hab. exact (eq_str_inj v a b Ha Hb).
Qed.

Lemma route_list_tools (method params request_id : json) (p : process) :
  eq_str method "tools/list" = true ->
  route method params request_id p
  = (inr (_handle_list_tools params request_id), p).
Proof.
  intros H. unfold route.
  rewrite (eq_str_other method "tools/list" "initialize" H) by discriminate.
  rewrite H. reflexivity.
Qed.

Lemma route_call_tool (method params request_id : json) (p : process) :
  eq_str method "tools/call" = true ->
  route method params request_id p = _handle_call_tool params request_id p.
Proof.
  intros H. unfold route.
  rewrite (eq_str_other method "tools/call" "initialize" H) by discriminate.
  rewrite (eq_str_other method "tools/call" "tools/list" H) by discriminate.
  rewrite H. reflexivity.
Qed.

Lemma route_unknown (method params request_id : json) (p : process) :
  unknown_method method = true ->
  route method params request_id p
  = (inr (error_response (py_or request_id (JInt 0)) (-32601)
            ("Method not found: " ++ py_str method)), p).
Proof.
  unfold unknown_method. intros H.
  apply andb_prop in H as [H H3]. apply andb_prop in H as [H1 H2].
  apply negb_true_iff in H1, H2, H3.
  unfold route. rewrite H1, H2, H3. reflexivity.
Qed.

(** ** The tool-call handler *)

(** With a dict for [params] the handler never raises: the body of
    its [try] decides between the two responses. *)
Lemma call_tool_dict (fields : list (string * json)) (request_id : json)
  (p : process) :
  _handle_call_tool (JObj fields) request_id p =
  match (_ensure_client ;; dispatch (name_of fields) (arguments_of fields)) p with
  | (inr result, p') => (inr (result_response (id_or 2 request_id) result), p')
  | (inl e, p') =>
      (inr (error_response (id_or 3 request_id) (-32603) (exn_msg e)), p')
  end.
Proof.
  cbv beta iota delta
    [_handle_call_tool try_except bind lift ret py_get id_or name_of arguments_of].
  destruct (_ensure_client p) as [[e | []] p1]; [reflexivity|].
  destruct (dispatch _ _ p1) as [[e | result] p2]; reflexivity.
Qed.

(** Without a dict the [except] clause raises again while it formats
    its log line, and the exception leaves the handler. *)
Lemma call_tool_not_dict (params request_id : json) (p : process) :
  is_dict params = false ->
  _handle_call_tool params request_id p = (inl (no_attribute params "get"), p).
Proof.
  intros Hd. destruct params; try discriminate Hd; reflexivity.
Qed.

Lemma call_tool_total (fields : list (string * json)) (request_id : json)
  (p : process) :
  exists p',
    (exists result,
        _handle_call_tool (JObj fields) request_id p
        = (inr (result_response (id_or 2 request_id) result), p'))
    \/ (exists message,
        _handle_call_tool (JObj fields) request_id p
        = (inr (error_response (id_or 3 request_id) (-32603) message), p')).
Proof.
  rewrite call_tool_dict.
  destruct ((_ensure_client ;; dispatch _ _) p) as [[e | result] p'];
    exists p'; [right | left]; eexists; reflexivity.
Qed.

(** ** [_ensure_client], case by case *)

Lemma ensure_client_present (c : WorkspaceClient) (p : process) :
  client (self p) = Some c -> _ensure_client p = (inr tt, p).
Proof.
  intros Hc. unfold _ensure_client, bind, get_self. cbn. rewrite Hc.
  reflexivity.
Qed.

Lemma ensure_client_no_sdk (p : process) :
  client (self p) = None -> sdk_imported = false ->
  _ensure_client p = (inl (Exn RuntimeError "Databricks SDK not installed"), p).
Proof.
  intros Hc Hs. unfold _ensure_client, bind, get_self. cbn. rewrite Hc, Hs.
  reflexivity.
Qed.

Lemma ensure_client_no_credentials (p : process) :
  client (self p) = None -> sdk_imported = true ->
  env_unset (os_getenv "DATABRICKS_HOST")
  || env_unset (os_getenv "DATABRICKS_TOKEN") = true ->
  _ensure_client p
  = (inl (Exn ValueError
       "DATABRICKS_HOST and DATABRICKS_TOKEN environment variables are required"),
     logged p [EvLoadConfig]).
Proof.
  intros Hc Hs He. unfold _ensure_client, bind, get_self. cbn.
  rewrite Hc, Hs. cbn. unfold _load_config, bind, emit. rewrite He.
  reflexivity.
Qed.

(** ** What the tools do to the process *)

Lemma called_remote_refl (p : process) : called_remote p p.
Proof.
  repeat split. exists []. split; [symmetry; apply app_nil_r | constructor].
Qed.

Lemma called_remote_once (p : process) (c : WorkspaceClient) (rc : remote_call)
  (w : World) :
  client (self p) = Some c ->
  called_remote p
    {| self := self p; world := w; stdout := stdout p;
       trace := trace p ++ [EvRemote c rc] |}.
Proof.
  intros Hc. repeat split. exists [EvRemote c rc]. split; [reflexivity|].
  constructor; [|constructor]. exists c. split; [exact Hc | exists rc; reflexivity].
Qed.

Lemma the_client_present (attr : string) (c : WorkspaceClient) (p : process) :
  client (self p) = Some c -> the_client attr p = (inr c, p).
Proof.
  intros Hc. unfold the_client, bind, get_self. cbv beta iota. rewrite Hc.
  reflexivity.
Qed.

Lemma the_client_absent (attr : string) (p : process) :
  client (self p) = None ->
  the_client attr p = (inl (no_attribute JNull attr), p).
Proof.
  intros Hc. unfold the_client, bind, get_self. cbv beta iota. rewrite Hc.
  reflexivity.
Qed.

(** A tool whose [try] block makes one remote call and then formats
    the answer without touching the process. *)
Lemma tool_effect (prefix attr : string) (rc : remote_call)
  (k : string -> M process string) (p : process) :
  (forall out q, after (k out) q = q) ->
  called_remote p
    (after (rewrap prefix
              (c <- the_client attr ;; out <- remote c rc ;; k out)) p).
Proof.
  intros Hk. unfold after, rewrap, try_except, bind.
  destruct (client (self p)) as [c|] eqn:Hc.
  - rewrite (the_client_present attr c p Hc). unfold remote.
    destruct (sdk_try c rc (world p)) as [[msg | out] w]; cbv beta iota.
    + apply called_remote_once, Hc.
    + specialize (Hk out {| self := self p; world := w; stdout := stdout p;
                            trace := trace p ++ [EvRemote c rc] |}).
      unfold after in Hk.
      destruct (k out _) as [[e | r] q]; cbn in Hk |- *; subst q;
        apply called_remote_once, Hc.
  - rewrite (the_client_absent attr p Hc). apply called_remote_refl.
Qed.

(** The same for a tool that returns the answer as it is. *)
Lemma plain_tool_effect (prefix attr : string) (rc : remote_call) (p : process) :
  called_remote p
    (after (rewrap prefix (c <- the_client attr ;; remote c rc)) p).
Proof.
  unfold after, rewrap, try_except, bind.
  destruct (client (self p)) as [c|] eqn:Hc.
  - rewrite (the_client_present attr c p Hc). unfold remote.
    destruct (sdk_try c rc (world p)) as [[msg | out] w]; cbv beta iota;
      apply called_remote_once, Hc.
  - rewrite (the_client_absent attr p Hc). apply called_remote_refl.
Qed.

Lemma config_host_pure (f : string -> string) (q : process) :
  after (h <- the_config_host ;; ret (f h)) q = q.
Proof.
  unfold after, the_config_host, bind, get_self. cbv beta iota.
  destruct (config (self q)); reflexivity.
Qed.

Lemma dispatch_effect (tool_name arguments : json) (p : process) :
  called_remote p (after (dispatch tool_name arguments) p).
Proof.
  unfold dispatch.
  repeat match goal with
         | |- context [if ?b then _ else _] => destruct b
         end.
  - unfold _test_connection. apply tool_effect.
    intros out q.
    apply (config_host_pure
             (fun h => "Successfully connected to Databricks workspace!" ++ nl
                       ++ "Host: " ++ h ++ nl ++ "User: " ++ out)).
  - apply plain_tool_effect.
  - unfold after, bind, lift.
    destruct (py_get arguments "cluster_id" JNull) as [e | v]; cbv beta iota.
    + apply called_remote_refl.
    + apply plain_tool_effect.
  - apply plain_tool_effect.
  - unfold after, bind, lift.
    destruct (py_get arguments "job_id" JNull) as [e | v]; cbv beta iota;
      [apply called_remote_refl|].
    destruct (py_get arguments "parameters" JNull) as [e | v']; cbv beta iota;
      [apply called_remote_refl|].
    unfold _run_job. apply tool_effect. reflexivity.
  - unfold after, bind, lift.
    destruct (py_get arguments "run_id" JNull) as [e | v]; cbv beta iota.
    + apply called_remote_refl.
    + apply plain_tool_effect.
  - unfold after, bind, lift.
    destruct (py_get arguments "path" (JStr "/")) as [e | v]; cbv beta iota.
    + apply called_remote_refl.
    + apply plain_tool_effect.
  - apply called_remote_refl.
Qed.

(** ** Counting created handles *)

Lemma creations_app (a b : list event) :
  creations (a ++ b) = (creations a + creations b)%nat.
Proof.
  induction a as [|ev a IH]; [reflexivity|].
  destruct ev as [| h t [c|] | c rc]; cbn; rewrite IH; reflexivity.
Qed.

Lemma creations_remote (p : process) (evs : list event) :
  Forall (fun ev => exists c, client (self p) = Some c /\ on_client c ev) evs ->
  creations evs = 0%nat.
Proof.
  induction 1 as [|ev evs [c [_ [rc ->]]] _ IH]; [reflexivity | exact IH].
Qed.

Lemma called_remote_match (p p' : process) :
  called_remote p p' -> creations_match p -> creations_match p'.
Proof.
  intros [Hs [_ [evs [Ht Hevs]]]] Hm. unfold creations_match in *.
  rewrite Ht, Hs, creations_app, (creations_remote p evs Hevs), Hm.
  apply Nat.add_0_r.
Qed.

Lemma ensure_client_match (p : process) :
  creations_match p -> creations_match (after _ensure_client p).
Proof.
  intros Hm. unfold after, _ensure_client, _load_config, bind, get_self.
  cbv beta iota.
  destruct (client (self p)) as [c|] eqn:Hc; [exact Hm|].
  destruct sdk_imported; cbv beta iota delta [negb raise snd]; [|exact Hm].
  unfold creations_match in Hm. rewrite Hc in Hm.
  destruct (env_unset _ || env_unset _); cbn.
  - unfold creations_match. cbn. rewrite Hc, creations_app, Hm. reflexivity.
  - unfold construct_client. cbn.
    destruct (new_client _ _ (world p)) as [[msg | c] w]; cbn;
      unfold creations_match; cbn;
      rewrite ?Hc, !creations_app, Hm; reflexivity.
Qed.

Lemma ensure_client_stdout (p : process) :
  stdout (after _ensure_client p) = stdout p.
Proof.
  unfold after, _ensure_client, _load_config, bind, get_self.
  cbv beta iota.
  destruct (client (self p)) as [c|]; [reflexivity|].
  destruct sdk_imported; cbv beta iota delta [negb raise snd]; [|reflexivity].
  destruct (env_unset _ || env_unset _); cbn; [reflexivity|].
  unfold construct_client. cbn.
  destruct (new_client _ _ (world p)) as [[msg | c] w]; reflexivity.
Qed.

(** ** One turn of the loop, in full *)

(** A turn either changes nothing, or writes the response of a
    handler that leaves the process alone, or is a tool call. *)
Lemma handle_line_cases (line : string) (p : process) :
  handle_line line p = (inr tt, p)
  \/ (exists fields response,
        is_blank line = false /\ json_loads line = Some (JObj fields) /\
        eq_str (method_of fields) "tools/call" = false /\
        handle_line line p = (inr tt, wrote p response))
  \/ (exists fields,
        is_blank line = false /\ json_loads line = Some (JObj fields) /\
        eq_str (method_of fields) "tools/call" = true /\
        handle_line line p =
        match _handle_call_tool (params_of fields) (id_of fields) p with
        | (inr response, p') => (inr tt, wrote p' response)
        | (inl _, p') => (inr tt, p')
        end).
Proof.
  destruct (is_blank line) eqn:Hb.
  { left. apply handle_line_blank, Hb. }
  destruct (json_loads line) as [v|] eqn:Hj.
  2:{ left. apply handle_line_invalid, Hj. }
  destruct (is_dict v) eqn:Hd.
  2:{ left. exact (handle_line_not_dict line v p Hj Hd). }
  destruct v as [| | | | | |fields]; try discriminate Hd.
  right. rewrite (handle_line_request line fields p Hb Hj).
  destruct (eq_str (method_of fields) "initialize") eqn:H1.
  { left. exists fields. eexists. repeat split.
    - apply (eq_str_other _ "initialize" "tools/call" H1). discriminate.
    - rewrite (route_initialize _ _ _ _ H1). reflexivity. }
  destruct (eq_str (method_of fields) "tools/list") eqn:H2.
  { left. exists fields. eexists. repeat split.
    - apply (eq_str_other _ "tools/list" "tools/call" H2). discriminate.
    - rewrite (route_list_tools _ _ _ _ H2). reflexivity. }
  destruct (eq_str (method_of fields) "tools/call") eqn:H3.
  { right. exists fields. repeat split; [exact H3|].
    rewrite (route_call_tool _ _ _ _ H3). reflexivity. }
  left. exists fields. eexists. repeat split; [exact H3|].
  rewrite route_unknown; [reflexivity|].
  unfold unknown_method. rewrite H1, H2, H3. reflexivity.
Qed.

(** What a tool call does to the process: nothing when [params] is
    not a dict; otherwise [_ensure_client], then remote calls only. *)
Lemma call_tool_effect (params request_id : json) (p : process) :
  after (_handle_call_tool params request_id) p = p
  \/ called_remote (after _ensure_client p)
       (after (_handle_call_tool params request_id) p).
Proof.
  destruct (is_dict params) eqn:Hd.
  2:{ left. unfold after. rewrite (call_tool_not_dict _ _ _ Hd). reflexivity. }
  destruct params as [| | | | | |fields]; try discriminate Hd.
  right. unfold after. rewrite call_tool_dict. unfold bind.
  destruct (_ensure_client p) as [[e | []] p1]; cbv beta iota.
  - apply called_remote_refl.
  - pose proof (dispatch_effect (name_of fields) (arguments_of fields) p1) as H.
    unfold after in H.
    destruct (dispatch _ _ p1) as [[e | result] p2]; exact H.
Qed.

Lemma call_tool_stdout (params request_id : json) (p : process) :
  stdout (after (_handle_call_tool params request_id) p) = stdout p.
Proof.
  destruct (call_tool_effect params request_id p) as [H | [_ [H _]]].
  - rewrite H. reflexivity.
  - rewrite H. apply ensure_client_stdout.
Qed.

Lemma handle_line_returns (line : string) (p : process) :
  handle_line line p = (inr tt, after (handle_line line) p).
Proof.
  unfold after.
  destruct (handle_line_cases line p)
    as [H | [(fields & response & _ & _ & _ & H) | (fields & _ & _ & _ & H)]];
    rewrite H; try reflexivity.
  destruct (_handle_call_tool _ _ p) as [[e | response] p']; reflexivity.
Qed.

Lemma run_cons (line : string) (rest : list string) (p : process) :
  run (line :: rest) p = run rest (after (handle_line line) p).
Proof.
  cbn [run]. unfold bind. rewrite (handle_line_returns line p). reflexivity.
Qed.

Lemma run_returns (lines : list string) (p : process) :
  run lines p = (inr tt, after (run lines) p).
Proof.
  revert p. induction lines as [|line rest IH]; intros p; [reflexivity|].
  unfold after. rewrite run_cons. rewrite (IH _) at 1. reflexivity.
Qed.

(** ** A server that already holds a handle *)

Lemma served_refl (c : WorkspaceClient) (p : process) : served c p p.
Proof.
  split; [reflexivity|]. exists []. split; [symmetry; apply app_nil_r | constructor].
Qed.

Lemma served_trans (c : WorkspaceClient) (p q r : process) :
  served c p q -> served c q r -> served c p r.
Proof.
  intros [Hs1 (e1 & Ht1 & Hf1)] [Hs2 (e2 & Ht2 & Hf2)].
  split; [congruence|]. exists (e1 ++ e2)%list. split.
  - rewrite Ht2, Ht1. symmetry. apply app_assoc.
  - apply Forall_app. split; assumption.
Qed.

Lemma served_wrote (c : WorkspaceClient) (p : process) (response : json) :
  served c p (wrote p response).
Proof. exact (served_refl c p). Qed.

Lemma called_remote_served (c : WorkspaceClient) (p p' : process) :
  client (self p) = Some c -> called_remote p p' -> served c p p'.
Proof.
  intros Hc [Hs [_ (evs & Ht & Hf)]]. split; [exact Hs|].
  exists evs. split; [exact Ht|].
  eapply Forall_impl; [|exact Hf]. cbv beta.
  intros ev (c' & Hc' & Hev). rewrite Hc in Hc'. injection Hc' as <-. exact Hev.
Qed.

Lemma call_tool_served (c : WorkspaceClient) (params request_id : json)
  (p : process) :
  client (self p) = Some c ->
  served c p (after (_handle_call_tool params request_id) p).
Proof.
  intros Hc.
  destruct (call_tool_effect params request_id p) as [H | H].
  - rewrite H. apply served_refl.
  - unfold after at 1 in H. rewrite (ensure_client_present c p Hc) in H.
    exact (called_remote_served c _ _ Hc H).
Qed.

Lemma handle_line_served (c : WorkspaceClient) (line : string) (p : process) :
  client (self p) = Some c -> served c p (after (handle_line line) p).
Proof.
  intros Hc. unfold after.
  destruct (handle_line_cases line p)
    as [H | [(fields & response & _ & _ & _ & H) | (fields & _ & _ & _ & H)]];
    rewrite H; cbn [snd].
  - apply served_refl.
  - apply served_wrote.
  - pose proof (call_tool_served c (params_of fields) (id_of fields) p Hc) as Hs.
    unfold after in Hs.
    destruct (_handle_call_tool _ _ p) as [[e | response] p']; cbn [snd] in *.
    + exact Hs.
    + exact (served_trans c _ _ _ Hs (served_wrote c p' response)).
Qed.

Lemma run_served (c : WorkspaceClient) (lines : list string) (p : process) :
  client (self p) = Some c -> served c p (after (run lines) p).
Proof.
  revert p. induction lines as [|line rest IH]; intros p Hc.
  - apply served_refl.
  - unfold after. rewrite run_cons.
    pose proof (handle_line_served c line p Hc) as H1.
    apply (served_trans c _ _ _ H1). apply IH.
    destruct H1 as [Hs _]. rewrite Hs. exact Hc.
Qed.

(** ** The number of handles over a whole run *)

Lemma wrote_match (p : process) (response : json) :
  creations_match p -> creations_match (wrote p response).
Proof. exact (fun H => H). Qed.

Lemma call_tool_match (params request_id : json) (p : process) :
  creations_match p ->
  creations_match (after (_handle_call_tool params request_id) p).
Proof.
  intros Hm. destruct (call_tool_effect params request_id p) as [H | H].
  - rewrite H. exact Hm.
  - exact (called_remote_match _ _ H (ensure_client_match p Hm)).
Qed.

Lemma handle_line_match (line : string) (p : process) :
  creations_match p -> creations_match (after (handle_line line) p).
Proof.
  intros Hm. unfold after.
  destruct (handle_line_cases line p)
    as [H | [(fields & response & _ & _ & _ & H) | (fields & _ & _ & _ & H)]];
    rewrite H; cbn [snd]; try exact Hm.
  pose proof (call_tool_match (params_of fields) (id_of fields) p Hm) as Hc.
  unfold after in Hc.
  destruct (_handle_call_tool _ _ p) as [[e | response] p']; exact Hc.
Qed.

Lemma run_match (lines : list string) (p : process) :
  creations_match p -> creations_match (after (run lines) p).
Proof.
  revert p. induction lines as [|line rest IH]; intros p Hm; [exact Hm|].
  unfold after. rewrite run_cons. apply IH, handle_line_match, Hm.
Qed.

(** ** Strings *)

Lemma prefix_refl (s : string) : String.prefix s s = true.
Proof.
  induction s as [|c s IH]; [reflexivity|]. cbn.
  destruct (ascii_dec c c) as [_ | Hn]; [exact IH | contradiction].
Qed.

Lemma is_infix_app (pre s : string) : is_infix s (pre ++ s) = true.
Proof.
  induction pre as [|c pre IH]; cbn [append].
  - destruct s as [|d s]; [reflexivity|].
    cbn [is_infix]. rewrite prefix_refl. reflexivity.
  - cbn [is_infix]. rewrite IH. apply orb_true_r.
Qed.

Lemma dispatch_unknown (name : string) (arguments : json) (p : process) :
  is_known_tool name = false ->
  dispatch (JStr name) arguments p
  = (inl (Exn ValueError ("Unknown tool: " ++ name)), p).
Proof.
  unfold is_known_tool, known_tools. cbn [existsb]. intros H.
  unfold dispatch, eq_str.
  repeat (apply orb_false_iff in H; destruct H as [H' H]; rewrite H'; clear H').
  reflexivity.
Qed.

(** ** Tool calls on a server without a client *)

Lemma call_tool_no_sdk (fields : list (string * json)) (request_id : json)
  (p : process) :
  client (self p) = None -> sdk_imported = false ->
  _handle_call_tool (JObj fields) request_id p
  = (inr (error_response (id_or 3 request_id) (-32603)
            "Databricks SDK not installed"), p).
Proof.
  intros Hc Hs. rewrite call_tool_dict. unfold bind.
  rewrite (ensure_client_no_sdk p Hc Hs). reflexivity.
Qed.

Lemma call_tool_no_credentials (fields : list (string * json))
  (request_id : json) (p : process) :
  client (self p) = None -> sdk_imported = true ->
  env_unset (os_getenv "DATABRICKS_HOST")
  || env_unset (os_getenv "DATABRICKS_TOKEN") = true ->
  _handle_call_tool (JObj fields) request_id p
  = (inr (error_response (id_or 3 request_id) (-32603)
       "DATABRICKS_HOST and DATABRICKS_TOKEN environment variables are required"),
     logged p [EvLoadConfig]).
Proof.
  intros Hc Hs He. rewrite call_tool_dict. unfold bind.
  rewrite (ensure_client_no_credentials p Hc Hs He). reflexivity.
Qed.

End Theory.

(** * The claims of the specification *)

(** C1: every well-formed [tools/list] request (a line that parses to
    an object whose method is [tools/list]) is answered by exactly one
    response, carrying the request id (or 1), whose [result.tools] array
    has exactly seven entries named, in order,
    [databricks_test_connection], [databricks_list_clusters],
    [databricks_get_cluster], [databricks_list_jobs],
    [databricks_run_job], [databricks_get_job_run] and
    [databricks_list_workspace]. *)
Theorem list_tools_seven_names {E : Externals} (line : string)
  (fields : list (string * json)) (p : process) :
  is_blank line = false ->
  json_loads line = Some (JObj fields) ->
  eq_str (method_of fields) "tools/list" = true ->
  exists response,
    handle_line line p = (inr tt, wrote p response) /\
    field "id" response = Some (id_or 1 (id_of fields)) /\
    option_map (@List.length _) (tool_names response) = Some 7%nat /\
    tool_names response
    = Some [ Some (JStr "databricks_test_connection");
             Some (JStr "databricks_list_clusters");
             Some (JStr "databricks_get_cluster");
             Some (JStr "databricks_list_jobs");
             Some (JStr "databricks_run_job");
             Some (JStr "databricks_get_job_run");
             Some (JStr "databricks_list_workspace") ].
Proof.
  intros Hb Hj Hm.
  exists (_handle_list_tools (params_of fields) (id_of fields)).
  split; [|repeat split].
  rewrite (handle_line_request line fields p Hb Hj).
  rewrite (route_list_tools _ _ _ _ Hm). reflexivity.
Qed.

(** The end-to-end example of the specification: the line with id 5. *)
Lemma list_tools_seven_names_witness :
  exists response,
    @handle_line Demo.without_credentials Demo.line_list_tools Demo.boot
    = (inr tt, wrote Demo.boot response) /\
    field "id" response = Some (JInt 5) /\
    option_map (@List.length _) (tool_names response) = Some 7%nat /\
    tool_names response
    = Some [ Some (JStr "databricks_test_connection");
             Some (JStr "databricks_list_clusters");
             Some (JStr "databricks_get_cluster");
             Some (JStr "databricks_list_jobs");
             Some (JStr "databricks_run_job");
             Some (JStr "databricks_get_job_run");
             Some (JStr "databricks_list_workspace") ].
Proof.
  apply (@list_tools_seven_names Demo.without_credentials Demo.line_list_tools
           [("jsonrpc", JStr "2.0"); ("id", JInt 5);
            ("method", JStr "tools/list"); ("params", JObj [])]);
    vm_compute; reflexivity.
Defined.

(** C2: when the request id is absent ([None]) the handlers answer
    with a fixed id: 0 for [initialize], 1 for [tools/list], and for
    [tools/call] 2 on a result and 3 on an error. *)
Theorem fallback_ids {E : Externals} (params : json)
  (fields : list (string * json)) (p : process) :
  field "id" (_handle_initialize params JNull) = Some (JInt 0) /\
  field "id" (_handle_list_tools params JNull) = Some (JInt 1) /\
  exists p',
    (exists result,
        _handle_call_tool (JObj fields) JNull p
        = (inr (result_response (JInt 2) result), p'))
    \/ (exists message,
        _handle_call_tool (JObj fields) JNull p
        = (inr (error_response (JInt 3) (-32603) message), p')).
Proof.
  split; [reflexivity|]. split; [reflexivity|].
  exact (call_tool_total fields JNull p).
Qed.

(** C3: a parsed request whose method is none of [initialize],
    [tools/list] and [tools/call] is answered by one response that has
    an error with code -32601, naming the method, and no result. *)
Theorem unknown_method_error {E : Externals} (line : string)
  (fields : list (string * json)) (p : process) :
  is_blank line = false ->
  json_loads line = Some (JObj fields) ->
  unknown_method (method_of fields) = true ->
  exists response,
    handle_line line p = (inr tt, wrote p response) /\
    error_code response = Some (JInt (-32601)) /\
    error_message response
    = Some (JStr ("Method not found: " ++ py_str (method_of fields))) /\
    field "result" response = None.
Proof.
  intros Hb Hj Hm. eexists. split.
  - rewrite (handle_line_request line fields p Hb Hj).
    rewrite (route_unknown _ _ _ _ Hm). reflexivity.
  - repeat split.
Qed.

Lemma unknown_method_error_witness :
  exists response,
    @handle_line Demo.without_credentials Demo.line_ping Demo.boot
    = (inr tt, wrote Demo.boot response) /\
    error_code response = Some (JInt (-32601)) /\
    error_message response = Some (JStr "Method not found: ping") /\
    field "result" response = None.
Proof.
  apply (@unknown_method_error Demo.without_credentials Demo.line_ping
           [("jsonrpc", JStr "2.0"); ("id", JBool false);
            ("method", JStr "ping")]);
    vm_compute; reflexivity.
Defined.

(** C4, as the specification states it: a line that fails to parse
    writes nothing and a line that parses writes exactly one response.
    The second half fails: the line [[]] parses (to an empty list) and
    nothing is written, because [request.get] raises and the catch-all
    [except Exception] of the loop continues. *)
Lemma parsed_line_without_response :
  ~ (forall (E : Externals) (line : string) (p : process),
        (json_loads line = None -> stdout (after (handle_line line) p) = stdout p)
        /\ (json_loads line <> None ->
            exists response,
              stdout (after (handle_line line) p)
              = (stdout p ++ [response])%list)).
Proof.
  intros H.
  destruct (H Demo.without_credentials Demo.line_array Demo.boot) as [_ H2].
  destruct H2 as [response Hr]; [vm_compute; discriminate|].
  vm_compute in Hr. discriminate Hr.
Qed.

(** C4, amended: every turn of the loop ends normally and the loop
    goes on with the next line.  A line that is blank, that fails to
    parse, or that parses to something other than an object writes
    nothing and changes nothing.  A line that parses to an object
    writes exactly one response when its method is not [tools/call] or
    its params are an object. *)
Theorem one_response_per_request {E : Externals} (line : string)
  (rest : list string) (p : process) :
  handle_line line p = (inr tt, after (handle_line line) p) /\
  run (line :: rest) p = run rest (after (handle_line line) p) /\
  (is_blank line = true \/ json_loads line = None
   \/ (exists v, json_loads line = Some v /\ is_dict v = false) ->
   after (handle_line line) p = p) /\
  (forall fields,
      is_blank line = false ->
      json_loads line = Some (JObj fields) ->
      eq_str (method_of fields) "tools/call" = false
      \/ is_dict (params_of fields) = true ->
      exists response,
        stdout (after (handle_line line) p) = (stdout p ++ [response])%list).
Proof.
  split; [apply handle_line_returns|]. split; [apply run_cons|]. split.
  - unfold after. intros [Hb | [Hj | (v & Hj & Hd)]].
    + rewrite (handle_line_blank line p Hb). reflexivity.
    + rewrite (handle_line_invalid line p Hj). reflexivity.
    + rewrite (handle_line_not_dict line v p Hj Hd). reflexivity.
  - intros fields Hb Hj Hm. unfold after.
    rewrite (handle_line_request line fields p Hb Hj).
    destruct (eq_str (method_of fields) "tools/call") eqn:Hcall.
    + destruct Hm as [Hm | Hd]; [discriminate Hm|].
      rewrite (route_call_tool _ _ _ _ Hcall).
      destruct (params_of fields) as [| | | | | |fs]; try discriminate Hd.
      pose proof (call_tool_stdout (JObj fs) (id_of fields) p) as Hout.
      unfold after in Hout.
      destruct (call_tool_total fs (id_of fields) p)
        as [p' [[result H] | [message H]]];
        rewrite H in Hout |- *; cbn in Hout |- *; rewrite Hout;
        eexists; reflexivity.
    + destruct (handle_line_cases line p)
        as [Hc | [(fs & response & _ & Hj' & _ & Hc) | (fs & _ & Hj' & Hc & _)]].
      * exfalso. rewrite (handle_line_request line fields p Hb Hj) in Hc.
        unfold route in Hc.
        destruct (eq_str (method_of fields) "initialize");
          [|destruct (eq_str (method_of fields) "tools/list");
            [|rewrite Hcall in Hc]];
          cbn in Hc; injection Hc as Hc;
          apply (f_equal stdout) in Hc; cbn in Hc;
          apply (f_equal (@List.length json)) in Hc;
          rewrite length_app in Hc; cbn in Hc; lia.
      * rewrite <- (handle_line_request line fields p Hb Hj), Hc.
        exists response. reflexivity.
      * rewrite Hj in Hj'. injection Hj' as <-. congruence.
Qed.

(** A line that is not JSON and a line that is a JSON list write
    nothing; an [initialize] request writes one response. *)
Lemma one_response_per_request_witness :
  @after Demo.without_credentials _ (handle_line Demo.line_garbage) Demo.boot
  = Demo.boot /\
  @after Demo.without_credentials _ (handle_line Demo.line_array) Demo.boot
  = Demo.boot /\
  exists response,
    stdout (@after Demo.without_credentials _
              (handle_line Demo.line_initialize) Demo.boot)
    = [response].
Proof.
  split; [|split].
  - apply (@one_response_per_request Demo.without_credentials
             Demo.line_garbage [] Demo.boot).
    right. left. vm_compute. reflexivity.
  - apply (@one_response_per_request Demo.without_credentials
             Demo.line_array [] Demo.boot).
    right. right. exists (JArr []). split; vm_compute; reflexivity.
  - apply (proj2 (proj2 (proj2
             (@one_response_per_request Demo.without_credentials
                Demo.line_initialize [] Demo.boot)))
             [("jsonrpc", JStr "2.0"); ("method", JStr "initialize");
              ("params", JObj [])]).
    + vm_compute. reflexivity.
    + vm_compute. reflexivity.
    + left. vm_compute. reflexivity.
Defined.

(** C5, as the specification states it for an unrecognized tool name:
    the response is a -32603 error whose message contains the name.
    It fails when the client cannot be ensured: without credentials a
    call of the tool [foo] is answered with the message of the config
    loader, in which [foo] does not occur. *)
Lemma unknown_tool_name_not_reported :
  ~ (forall (E : Externals) (fields : list (string * json)) (name : string)
            (request_id : json) (p : process),
        name_of fields = JStr name ->
        is_known_tool name = false ->
        exists response p' message,
          _handle_call_tool (JObj fields) request_id p = (inr response, p') /\
          error_code response = Some (JInt (-32603)) /\
          error_message response = Some (JStr message) /\
          is_infix name message = true).
Proof.
  intros H.
  destruct (H Demo.without_credentials Demo.params_foo "foo" (JInt 1) Demo.boot
              eq_refl eq_refl)
    as (response & p' & message & Hcall & _ & Hmsg & Hin).
  rewrite (@call_tool_no_credentials Demo.without_credentials Demo.params_foo
             (JInt 1) Demo.boot eq_refl eq_refl eq_refl) in Hcall.
  injection Hcall as <- _. cbn in Hmsg. injection Hmsg as <-.
  vm_compute in Hin. discriminate Hin.
Qed.

(** C5, amended: in a [tools/call] whose params are an object, an
    exception raised while ensuring the client handle, or while
    performing the dispatched call, becomes an error response with code
    -32603 whose message is the text of the exception.  When the client
    handle is ensured and the tool name is a string the handler does not
    know, the message is [Unknown tool: ] followed by the name, and so
    contains the name. *)
Theorem tool_call_errors {E : Externals} (fields : list (string * json))
  (request_id : json) (p : process) :
  (forall e p1,
      _ensure_client p = (inl e, p1) ->
      _handle_call_tool (JObj fields) request_id p
      = (inr (error_response (id_or 3 request_id) (-32603) (exn_msg e)), p1)) /\
  (forall p1 e p2,
      _ensure_client p = (inr tt, p1) ->
      dispatch (name_of fields) (arguments_of fields) p1 = (inl e, p2) ->
      _handle_call_tool (JObj fields) request_id p
      = (inr (error_response (id_or 3 request_id) (-32603) (exn_msg e)), p2)) /\
  (forall p1 name,
      _ensure_client p = (inr tt, p1) ->
      name_of fields = JStr name ->
      is_known_tool name = false ->
      _handle_call_tool (JObj fields) request_id p
      = (inr (error_response (id_or 3 request_id) (-32603)
                ("Unknown tool: " ++ name)), p1)
      /\ is_infix name ("Unknown tool: " ++ name) = true).
Proof.
  split; [|split].
  - intros e p1 He. rewrite call_tool_dict. unfold bind. rewrite He.
    reflexivity.
  - intros p1 e p2 He Hd. rewrite call_tool_dict. unfold bind.
    rewrite He, Hd. reflexivity.
  - intros p1 name He Hn Hk. split; [|apply is_infix_app].
    rewrite call_tool_dict. unfold bind. rewrite He, Hn.
    rewrite (dispatch_unknown name _ p1 Hk). reflexivity.
Qed.

(** Without credentials the error of the config loader is reported;
    with a client, a list for [arguments] raises inside the dispatched
    call and the tool [foo] is reported by name. *)
Lemma tool_call_errors_witness :
  (exists p',
      @_handle_call_tool Demo.without_credentials (JObj Demo.params_foo)
        (JInt 1) Demo.boot
      = (inr (error_response (JInt 1) (-32603)
           "DATABRICKS_HOST and DATABRICKS_TOKEN environment variables are required"),
         p')) /\
  (exists p',
      @_handle_call_tool Demo.configured (JObj Demo.params_bad_arguments)
        JNull Demo.boot
      = (inr (error_response (JInt 3) (-32603)
                "'list' object has no attribute 'get'"), p')) /\
  (exists p',
      @_handle_call_tool Demo.configured (JObj Demo.params_foo) (JInt 1)
        Demo.boot
      = (inr (error_response (JInt 1) (-32603) "Unknown tool: foo"), p')
      /\ is_infix "foo" "Unknown tool: foo" = true).
Proof.
  split; [|split]; eexists.
  - apply (proj1 (@tool_call_errors Demo.without_credentials Demo.params_foo
                    (JInt 1) Demo.boot)
             (Exn ValueError
                "DATABRICKS_HOST and DATABRICKS_TOKEN environment variables are required")).
    reflexivity.
  - refine (proj1 (proj2 (@tool_call_errors Demo.configured
                            Demo.params_bad_arguments JNull Demo.boot))
              _ (no_attribute (JArr []) "get") _ _ _); reflexivity.
  - refine (proj2 (proj2 (@tool_call_errors Demo.configured Demo.params_foo
                            (JInt 1) Demo.boot)) _ "foo" _ _ _); reflexivity.
Defined.

(** C6, as the specification states it: with the host or the token
    missing and no client handle yet, a [tools/call] fails with the
    message of the config loader.  It fails when the SDK could not be
    imported: [_ensure_client] then raises before it loads the
    configuration and the message is the one about the SDK. *)
Lemma missing_sdk_reported_first :
  ~ (forall (E : Externals) (fields : list (string * json))
            (request_id : json) (p : process),
        client (self p) = None ->
        os_getenv "DATABRICKS_HOST" = None
        \/ os_getenv "DATABRICKS_TOKEN" = None ->
        exists p',
          _handle_call_tool (JObj fields) request_id p
          = (inr (error_response (id_or 3 request_id) (-32603)
               "DATABRICKS_HOST and DATABRICKS_TOKEN environment variables are required"),
             p')).
Proof.
  intros H.
  destruct (H Demo.without_sdk Demo.params_foo (JInt 1) Demo.boot eq_refl
              (or_introl eq_refl)) as [p' Hcall].
  rewrite (@call_tool_no_sdk Demo.without_sdk Demo.params_foo (JInt 1)
             Demo.boot eq_refl eq_refl) in Hcall.
  discriminate Hcall.
Qed.

(** C6, amended: when the SDK was imported, no client handle exists
    yet and the host or the token is missing from the environment, a
    [tools/call] whose params are an object is answered by an error
    response with code -32603 and the message of the config loader; the
    configuration was looked up and nothing else happened. *)
Theorem missing_credentials_error {E : Externals}
  (fields : list (string * json)) (request_id : json) (p : process) :
  sdk_imported = true ->
  client (self p) = None ->
  os_getenv "DATABRICKS_HOST" = None \/ os_getenv "DATABRICKS_TOKEN" = None ->
  _handle_call_tool (JObj fields) request_id p
  = (inr (error_response (id_or 3 request_id) (-32603)
       "DATABRICKS_HOST and DATABRICKS_TOKEN environment variables are required"),
     logged p [EvLoadConfig]).
Proof.
  intros Hs Hc He. apply (call_tool_no_credentials fields request_id p Hc Hs).
  destruct He as [He | He]; rewrite He; cbn; [reflexivity | apply orb_true_r].
Qed.

Lemma missing_credentials_error_witness :
  @_handle_call_tool Demo.without_credentials
    (JObj [("name", JStr "databricks_list_clusters")]) JNull Demo.boot
  = (inr (error_response (JInt 3) (-32603)
       "DATABRICKS_HOST and DATABRICKS_TOKEN environment variables are required"),
     logged Demo.boot [EvLoadConfig]).
Proof.
  apply (@missing_credentials_error Demo.without_credentials
           [("name", JStr "databricks_list_clusters")] JNull Demo.boot).
  - reflexivity.
  - reflexivity.
  - left. reflexivity.
Defined.

(** C7: the client handle and its configuration are created at most
    once per process.  Over any sequence of input lines read by a
    process that [main] started, the constructor returns at most one
    handle.  And once the server holds a handle [c], any further
    sequence of lines is processed to the end, leaves the handle and
    the configuration as they are, loads no configuration and creates
    no client: the only events are remote calls, all made on [c]. *)
Theorem client_created_once {E : Externals} (lines : list string) (w : World) :
  (creations (trace (after (run lines) (main w))) <= 1)%nat /\
  forall (p : process) (c : WorkspaceClient),
    client (self p) = Some c ->
    exists p',
      run lines p = (inr tt, p') /\
      client (self p') = Some c /\
      config (self p') = config (self p) /\
      exists evs,
        trace p' = (trace p ++ evs)%list /\ Forall (on_client c) evs.
Proof.
  split.
  - assert (Hm : creations_match (main w)) by reflexivity.
    apply (run_match lines) in Hm. unfold creations_match in Hm.
    rewrite Hm. destruct (client (self (after (run lines) (main w)))); lia.
  - intros p c Hc. exists (after (run lines) p).
    destruct (run_served c lines p Hc) as [Hs Hev].
    split; [apply run_returns|]. rewrite Hs.
    split; [exact Hc|]. split; [reflexivity | exact Hev].
Qed.

(** After a first tool call created the handle 0, a second tool call
    keeps it and makes its remote call on it. *)
Lemma client_created_once_witness :
  exists p',
    @run Demo.configured [Demo.line_list_jobs]
      (after (run [Demo.line_test_connection]) Demo.boot)
    = (inr tt, p') /\
    client (self p') = Some 0%nat /\
    config (self p')
    = config (self (@after Demo.configured _
                      (run [Demo.line_test_connection]) Demo.boot)) /\
    exists evs,
      trace p'
      = (trace (@after Demo.configured _
                  (run [Demo.line_test_connection]) Demo.boot) ++ evs)%list
      /\ Forall (@on_client Demo.configured 0%nat) evs.
Proof.
  apply (proj2 (@client_created_once Demo.configured [Demo.line_list_jobs]
                  0%nat)).
  vm_compute. reflexivity.
Defined.

(** C8: handling an [initialize] or a [tools/list] request leaves the
    client handle and the configuration as they are (and makes no call
    to the outside); a turn of the loop that changes either of them
    handled a [tools/call] request. *)
Theorem only_tool_calls_create_client {E : Externals} (line : string)
  (p : process) :
  (forall fields,
      json_loads line = Some (JObj fields) ->
      eq_str (method_of fields) "initialize" = true
      \/ eq_str (method_of fields) "tools/list" = true ->
      self (after (handle_line line) p) = self p /\
      world (after (handle_line line) p) = world p /\
      trace (after (handle_line line) p) = trace p) /\
  (self (after (handle_line line) p) <> self p ->
   exists fields,
     json_loads line = Some (JObj fields) /\
     eq_str (method_of fields) "tools/call" = true).
Proof.
  unfold after.
  destruct (handle_line_cases line p)
    as [H | [(fs & response & _ & Hj & _ & H) | (fs & _ & Hj & Hcall & H)]].
  - rewrite H. split; [repeat split|]. intros Hn. contradiction Hn. reflexivity.
  - rewrite H. split; [repeat split|]. intros Hn. contradiction Hn. reflexivity.
  - split.
    + intros fields Hj' Hm. exfalso.
      rewrite Hj in Hj'. injection Hj' as <-.
      destruct Hm as [Hm | Hm];
        pose proof (eq_str_inj _ _ _ Hm Hcall) as Habs; discriminate Habs.
    + intros _. exists fs. split; assumption.
Qed.

(** An [initialize] request and a [tools/list] request on a fresh
    server: the handle and the configuration stay [None]. *)
Lemma only_tool_calls_create_client_witness :
  self (@after Demo.configured _ (handle_line Demo.line_initialize) Demo.boot)
  = __init__ /\
  self (@after Demo.configured _ (handle_line Demo.line_list_tools) Demo.boot)
  = __init__.
Proof.
  split.
  - apply (proj1 (@only_tool_calls_create_client Demo.configured
                    Demo.line_initialize Demo.boot)
             [("jsonrpc", JStr "2.0"); ("method", JStr "initialize");
              ("params", JObj [])]).
    + vm_compute. reflexivity.
    + left. reflexivity.
  - apply (proj1 (@only_tool_calls_create_client Demo.configured
                    Demo.line_list_tools Demo.boot)
             [("jsonrpc", JStr "2.0"); ("id", JInt 5);
              ("method", JStr "tools/list"); ("params", JObj [])]).
    + vm_compute. reflexivity.
    + right. reflexivity.
Defined.

(** C9: for every params mapping (whatever keys it has) and every
    request id the tool-call handler returns, and never raises: the
    response is either a result whose content is one text entry or an
    error with code -32603, under the request id or the fallback. *)
Theorem call_tool_never_raises {E : Externals} (fields : list (string * json))
  (request_id : json) (p : process) :
  exists response p',
    _handle_call_tool (JObj fields) request_id p = (inr response, p') /\
    ((exists text,
         response = result_response (id_or 2 request_id) text /\
         field "result" response
         = Some (JObj [("content",
                        JArr [JObj [("type", JStr "text");
                                    ("text", JStr text)]])]) /\
         field "error" response = None)
     \/ (exists message,
         response = error_response (id_or 3 request_id) (-32603) message /\
         error_code response = Some (JInt (-32603)) /\
         field "result" response = None)).
Proof.
  destruct (call_tool_total fields request_id p)
    as [p' [[result H] | [message H]]]; rewrite H.
  - eexists. exists p'. split; [reflexivity|]. left. exists result.
    repeat split.
  - eexists. exists p'. split; [reflexivity|]. right. exists message.
    repeat split.
Qed.

(** C10: the response to an unknown method carries the request id
    when that id is truthy and 0 otherwise, so [None], [0], [False] and
    the empty string all become 0; the three handlers keep every id
    other than [None], falsy or not. *)
Theorem unknown_method_id {E : Externals} (line : string)
  (fields : list (string * json)) (p : process) :
  is_blank line = false ->
  json_loads line = Some (JObj fields) ->
  unknown_method (method_of fields) = true ->
  (exists response,
      handle_line line p = (inr tt, wrote p response) /\
      field "id" response
      = Some (if truthy (id_of fields) then id_of fields else JInt 0)) /\
  (truthy JNull = false /\ truthy (JInt 0) = false /\
   truthy (JBool false) = false /\ truthy (JStr "") = false) /\
  (forall params request_id fs q,
      is_none request_id = false ->
      field "id" (_handle_initialize params request_id) = Some request_id /\
      field "id" (_handle_list_tools params request_id) = Some request_id /\
      exists response q',
        _handle_call_tool (JObj fs) request_id q = (inr response, q') /\
        field "id" response = Some request_id).
Proof.
  intros Hb Hj Hm. split; [|split].
  - eexists. split.
    + rewrite (handle_line_request line fields p Hb Hj).
      rewrite (route_unknown _ _ _ _ Hm). reflexivity.
    + reflexivity.
  - repeat split.
  - intros params request_id fs q Hn.
    split; [|split].
    + unfold _handle_initialize. rewrite Hn. reflexivity.
    + unfold _handle_list_tools. rewrite Hn. reflexivity.
    + destruct (call_tool_total fs request_id q)
        as [q' [[result H] | [message H]]]; rewrite H;
        eexists; exists q'; (split; [reflexivity|]);
        unfold id_or; rewrite Hn; reflexivity.
Qed.

(** The request [ping] with the id [false] is answered under the id
    0, while [initialize] keeps the id [false]. *)
Lemma unknown_method_id_witness :
  (exists response,
      @handle_line Demo.without_credentials Demo.line_ping Demo.boot
      = (inr tt, wrote Demo.boot response) /\
      field "id" response = Some (JInt 0)) /\
  field "id" (@_handle_initialize (JObj []) (JBool false))
  = Some (JBool false).
Proof.
  pose proof (@unknown_method_id Demo.without_credentials Demo.line_ping
                [("jsonrpc", JStr "2.0"); ("id", JBool false);
                 ("method", JStr "ping")] Demo.boot
                eq_refl eq_refl eq_refl) as [H1 [_ H3]].
  split.
  - exact H1.
  - exact (proj1 (H3 (JObj []) (JBool false) [] Demo.boot eq_refl)).
Defined.

(** * Further properties of the program *)

Section Tools.

Context {E : Externals}.

Local Open Scope py_scope.

(** ** The tool functions on a server that holds a client *)

Lemma plain_tool_run (prefix attr : string) (rc : remote_call)
  (c : WorkspaceClient) (p : process) :
  client (self p) = Some c ->
  rewrap prefix (x <- the_client attr ;; remote x rc) p
  = match sdk_try c rc (world p) with
    | (inl msg, w) => (inl (Exn RuntimeError (prefix ++ msg)), called p c rc w)
    | (inr out, w) => (inr out, called p c rc w)
    end.
Proof.
  intros Hc. unfold rewrap, try_except, bind.
  rewrite (the_client_present attr c p Hc). unfold remote.
  destruct (sdk_try c rc (world p)) as [[msg | out] w]; reflexivity.
Qed.

Lemma config_host_present (cfg : DatabricksConfig) (p : process) :
  config (self p) = Some cfg -> the_config_host p = (inr (host cfg), p).
Proof.
  intros Hc. unfold the_config_host, bind, get_self. cbv beta iota.
  rewrite Hc. reflexivity.
Qed.

Lemma test_connection_run (c : WorkspaceClient) (cfg : DatabricksConfig)
  (p : process) :
  client (self p) = Some c -> config (self p) = Some cfg ->
  _test_connection p
  = match sdk_try c CurrentUserMe (world p) with
    | (inl msg, w) =>
        (inl (Exn RuntimeError ("Connection failed: " ++ msg)),
         called p c CurrentUserMe w)
    | (inr out, w) =>
        (inr ("Successfully connected to Databricks workspace!" ++ nl
              ++ "Host: " ++ host cfg ++ nl ++ "User: " ++ out),
         called p c CurrentUserMe w)
    end.
Proof.
  intros Hc Hcfg. unfold _test_connection, rewrap, try_except, bind.
  rewrite (the_client_present "current_user" c p Hc). unfold remote.
  destruct (sdk_try c CurrentUserMe (world p)) as [[msg | out] w];
    [reflexivity|].
  cbv beta iota.
  rewrite (config_host_present cfg); [reflexivity | exact Hcfg].
Qed.

Lemma run_job_run (job_id parameters : json) (c : WorkspaceClient)
  (p : process) :
  client (self p) = Some c ->
  _run_job job_id parameters p
  = match sdk_try c (JobsRunNow job_id (py_or parameters (JObj [])))
            (world p) with
    | (inl msg, w) =>
        (inl (Exn RuntimeError ("Error running job: " ++ msg)),
         called p c (JobsRunNow job_id (py_or parameters (JObj []))) w)
    | (inr out, w) =>
        (inr ("Job run started successfully!" ++ nl ++ "Run ID: " ++ out ++ nl
              ++ "Job ID: " ++ py_str job_id),
         called p c (JobsRunNow job_id (py_or parameters (JObj []))) w)
    end.
Proof.
  intros Hc. unfold _run_job, rewrap, try_except, bind.
  rewrite (the_client_present "jobs" c p Hc). unfold remote.
  destruct (sdk_try c _ (world p)) as [[msg | out] w]; reflexivity.
Qed.

(** The seven names, one by one. *)
Lemma known_tool_cases (name : string) :
  is_known_tool name = true ->
  name = "databricks_test_connection" \/ name = "databricks_list_clusters"
  \/ name = "databricks_get_cluster" \/ name = "databricks_list_jobs"
  \/ name = "databricks_run_job" \/ name = "databricks_get_job_run"
  \/ name = "databricks_list_workspace".
Proof.
  unfold is_known_tool, known_tools. cbn [existsb]. intros H.
  repeat (apply orb_true_iff in H; destruct H as [H | H];
          [apply String.eqb_eq in H; tauto|]).
  discriminate H.
Qed.

(** A known tool on a server with a client and a configuration: one
    remote call, whose outcome decides between the text of the tool and
    the [RuntimeError] with the prefix of the tool. *)
Lemma dispatch_known (name : string) (fields : list (string * json))
  (c : WorkspaceClient) (cfg : DatabricksConfig) (p : process) :
  is_known_tool name = true ->
  client (self p) = Some c -> config (self p) = Some cfg ->
  dispatch (JStr name) (JObj fields) p
  = match sdk_try c (remote_call_of name fields) (world p) with
    | (inl msg, w) =>
        (inl (Exn RuntimeError (failure_prefix name ++ msg)),
         called p c (remote_call_of name fields) w)
    | (inr out, w) =>
        (inr (result_text name fields (host cfg) out),
         called p c (remote_call_of name fields) w)
    end.
Proof.
  intros Hk Hc Hcfg.
  destruct (known_tool_cases name Hk) as [-> | [-> | [-> | [-> | [-> | [-> | ->]]]]]].
  - exact (test_connection_run c cfg p Hc Hcfg).
  - exact (plain_tool_run _ _ _ c p Hc).
  - exact (plain_tool_run _ _ _ c p Hc).
  - exact (plain_tool_run _ _ _ c p Hc).
  - exact (run_job_run _ _ c p Hc).
  - exact (plain_tool_run _ _ _ c p Hc).
  - exact (plain_tool_run _ _ _ c p Hc).
Qed.

End Tools.

Section Setup.

Context {E : Externals}.

Local Open Scope py_scope.

(** ** [_ensure_client] on a server without a client *)

Lemma ensure_client_fresh (p : process) :
  client (self p) = None -> sdk_imported = true -> credentials_set = true ->
  _ensure_client p
  = match new_client (host env_config) (token env_config) (world p) with
    | (inl msg, w) => (inl (Exn SdkError msg), attempted p None w)
    | (inr c, w) => (inr tt, attempted p (Some c) w)
    end.
Proof.
  intros Hc Hs He. unfold credentials_set in He. apply negb_true_iff in He.
  unfold _ensure_client, bind, get_self. cbv beta iota. rewrite Hc, Hs.
  cbv beta iota delta [negb]. unfold _load_config, bind, emit. rewrite He.
  cbv beta iota delta [ret set_config]. unfold construct_client.
  cbn [self world stdout trace host token client config].
  fold env_config.
  change (env_value (os_getenv "DATABRICKS_HOST")) with (host env_config).
  change (env_value (os_getenv "DATABRICKS_TOKEN")) with (token env_config).
  destruct (new_client (host env_config) (token env_config) (world p))
    as [[msg | c] w]; unfold attempted, set_client; cbn; rewrite ?Hc;
    reflexivity.
Qed.

(** The three ways [_ensure_client] leaves the process. *)
Lemma ensure_client_cases (p : process) :
  after _ensure_client p = p
  \/ (client (self p) = None /\ after _ensure_client p = logged p [EvLoadConfig])
  \/ (client (self p) = None /\
      exists created w, after _ensure_client p = attempted p created w).
Proof.
  unfold after.
  destruct (client (self p)) as [c|] eqn:Hc.
  { left. rewrite (ensure_client_present c p Hc). reflexivity. }
  destruct sdk_imported eqn:Hs.
  2:{ left. rewrite (ensure_client_no_sdk p Hc Hs). reflexivity. }
  destruct credentials_set eqn:He.
  - right. right. split; [reflexivity|].
    rewrite (ensure_client_fresh p Hc Hs He).
    destruct (new_client _ _ (world p)) as [[msg | c] w];
      eexists; eexists; reflexivity.
  - right. left. split; [reflexivity|].
    unfold credentials_set in He. apply negb_false_iff in He.
    rewrite (ensure_client_no_credentials p Hc Hs He). reflexivity.
Qed.

End Setup.

(** X1: a host or a token set to the empty string counts as missing:
    on a server without a client (the SDK being there) a tool call is
    answered with the error of the config loader, and only the
    environment was looked at. *)
Theorem empty_credentials_count_as_missing {E : Externals}
  (fields : list (string * json)) (request_id : json) (p : process) :
  sdk_imported = true ->
  client (self p) = None ->
  os_getenv "DATABRICKS_HOST" = Some "" \/ os_getenv "DATABRICKS_TOKEN" = Some "" ->
  _handle_call_tool (JObj fields) request_id p
  = (inr (error_response (id_or 3 request_id) (-32603)
       "DATABRICKS_HOST and DATABRICKS_TOKEN environment variables are required"),
     logged p [EvLoadConfig]).
Proof.
  intros Hs Hc He. apply (call_tool_no_credentials fields request_id p Hc Hs).
  destruct He as [He | He]; rewrite He; cbn; [reflexivity | apply orb_true_r].
Qed.

Lemma empty_credentials_count_as_missing_witness :
  @_handle_call_tool Samples.with_empty_token
    (JObj [("name", JStr "databricks_list_jobs")]) (JInt 4) Demo.boot
  = (inr (error_response (JInt 4) (-32603)
       "DATABRICKS_HOST and DATABRICKS_TOKEN environment variables are required"),
     logged Demo.boot [EvLoadConfig]).
Proof.
  apply (@empty_credentials_count_as_missing Samples.with_empty_token
           [("name", JStr "databricks_list_jobs")] (JInt 4) Demo.boot).
  - reflexivity.
  - reflexivity.
  - right. reflexivity.
Defined.

(** X2: the first call of a known tool on a server without a client,
    with the SDK there, both credentials set and a constructor that
    returns a handle: the configuration is the one of the environment,
    the constructor got its host and token, the one remote call of the
    tool is made on the new handle, and its answer is the text of the
    result. *)
Theorem first_call_connects {E : Externals} (params fields : list (string * json))
  (name : string) (request_id : json) (p : process) (c : WorkspaceClient)
  (w w' : World) (out : string) :
  sdk_imported = true ->
  client (self p) = None ->
  credentials_set = true ->
  name_of params = JStr name ->
  arguments_of params = JObj fields ->
  is_known_tool name = true ->
  new_client (host env_config) (token env_config) (world p) = (inr c, w) ->
  sdk_try c (remote_call_of name fields) w = (inr out, w') ->
  _handle_call_tool (JObj params) request_id p
  = (inr (result_response (id_or 2 request_id)
            (result_text name fields (host env_config) out)),
     called (attempted p (Some c) w) c (remote_call_of name fields) w').
Proof.
  intros Hs Hc He Hn Ha Hk Hnew Hcall.
  rewrite call_tool_dict. unfold bind.
  rewrite (ensure_client_fresh p Hc Hs He), Hnew, Hn, Ha.
  rewrite (dispatch_known name fields c env_config (attempted p (Some c) w) Hk
             eq_refl eq_refl).
  cbn [world attempted]. rewrite Hcall. reflexivity.
Qed.

Lemma first_call_connects_witness :
  @_handle_call_tool Demo.configured
    (JObj [("name", JStr "databricks_list_jobs"); ("arguments", JObj [])])
    (JInt 8) Demo.boot
  = (inr (result_response (JInt 8) "[]"),
     called (attempted Demo.boot (Some 0%nat) 1%nat) 0%nat JobsList 2%nat).
Proof.
  apply (@first_call_connects Demo.configured
           [("name", JStr "databricks_list_jobs"); ("arguments", JObj [])]
           [] "databricks_list_jobs" (JInt 8) Demo.boot 0%nat 1%nat 2%nat "[]");
    reflexivity.
Defined.

(** X3: when the constructor raises, the tool call is answered with
    an error whose message is the one of the constructor; the server
    keeps the configuration it loaded but has no client, and no remote
    call was made. *)
Theorem failed_constructor_reported {E : Externals}
  (fields : list (string * json)) (request_id : json) (p : process)
  (msg : string) (w : World) :
  sdk_imported = true ->
  client (self p) = None ->
  credentials_set = true ->
  new_client (host env_config) (token env_config) (world p) = (inl msg, w) ->
  _handle_call_tool (JObj fields) request_id p
  = (inr (error_response (id_or 3 request_id) (-32603) msg),
     attempted p None w).
Proof.
  intros Hs Hc He Hnew. rewrite call_tool_dict. unfold bind.
  rewrite (ensure_client_fresh p Hc Hs He), Hnew. reflexivity.
Qed.

Lemma failed_constructor_reported_witness :
  @_handle_call_tool Samples.failing
    (JObj [("name", JStr "databricks_list_jobs")]) JNull
    (@main Samples.failing 0%nat)
  = (inr (error_response (JInt 3) (-32603)
            "cannot configure default credentials"),
     attempted (@main Samples.failing 0%nat) None 1%nat).
Proof.
  apply (@failed_constructor_reported Samples.failing
           [("name", JStr "databricks_list_jobs")] JNull
           (@main Samples.failing 0%nat)
           "cannot configure default credentials" 1%nat);
    reflexivity.
Defined.

Section Invariants.

Context {E : Externals}.

Local Open Scope py_scope.

(** ** What every run keeps *)

(** A property kept by writing a response, by [_ensure_client] and by
    remote calls is kept by the loop. *)
Lemma run_preserves (P : process -> Prop) :
  (forall p r, P p -> P (wrote p r)) ->
  (forall p, P p -> P (after _ensure_client p)) ->
  (forall p p', called_remote p p' -> P p -> P p') ->
  forall lines p, P p -> P (after (run lines) p).
Proof.
  intros Hw He Hr.
  assert (Hcall : forall params request_id p,
             P p -> P (after (_handle_call_tool params request_id) p)).
  { intros params request_id p Hp.
    destruct (call_tool_effect params request_id p) as [H | H].
    - rewrite H. exact Hp.
    - exact (Hr _ _ H (He p Hp)). }
  assert (Hline : forall line p, P p -> P (after (handle_line line) p)).
  { intros line p Hp. unfold after.
    destruct (handle_line_cases line p)
      as [H | [(fields & response & _ & _ & _ & H) | (fields & _ & _ & _ & H)]];
      rewrite H; cbn [snd].
    - exact Hp.
    - apply Hw, Hp.
    - pose proof (Hcall (params_of fields) (id_of fields) p Hp) as Hc.
      unfold after in Hc.
      destruct (_handle_call_tool _ _ p) as [[e | response] p']; cbn [snd] in *.
      + exact Hc.
      + apply Hw, Hc. }
  induction lines as [|line rest IH]; intros p Hp; [exact Hp|].
  unfold after. rewrite run_cons. apply IH, Hline, Hp.
Qed.

Lemma ensure_client_sound (p : process) :
  config_sound p -> config_sound (after _ensure_client p).
Proof.
  intros Hp.
  destruct (ensure_client_cases p)
    as [H | [[_ H] | [_ (created & w & H)]]]; rewrite H.
  - exact Hp.
  - exact Hp.
  - split; [right; reflexivity | intros _; discriminate].
Qed.

Lemma called_remote_sound (p p' : process) :
  called_remote p p' -> config_sound p -> config_sound p'.
Proof.
  intros [Hs _] Hp. unfold config_sound. rewrite Hs. exact Hp.
Qed.

Lemma attempts_no_remote (p : process) (evs : list event) :
  client (self p) = None ->
  Forall (fun ev => exists c, client (self p) = Some c /\ on_client c ev) evs ->
  evs = [].
Proof.
  intros Hc Hf. destruct Hf as [|ev evs (c & Habs & _) _]; [reflexivity|].
  rewrite Hc in Habs. discriminate Habs.
Qed.

Lemma ensure_client_disciplined (p : process) :
  trace_disciplined p -> trace_disciplined (after _ensure_client p).
Proof.
  intros Hp.
  destruct (ensure_client_cases p)
    as [H | [[Hc H] | [Hc (created & w & H)]]]; rewrite H.
  - exact Hp.
  - unfold trace_disciplined in *. cbn [logged self trace]. rewrite Hc in *.
    apply Forall_app. split; [exact Hp|].
    constructor; [left; reflexivity | constructor].
  - unfold trace_disciplined in *. rewrite Hc in Hp.
    cbn [attempted self trace client].
    assert (Hpre : Forall is_attempt (trace p ++ [EvLoadConfig])%list).
    { apply Forall_app. split; [exact Hp|].
      constructor; [left; reflexivity | constructor]. }
    destruct created as [c|].
    + exists (trace p ++ [EvLoadConfig])%list, []. repeat split.
      * exact Hpre.
      * constructor.
    + apply Forall_app. split; [exact Hpre|].
      constructor; [right; reflexivity | constructor].
Qed.

Lemma called_remote_disciplined (p p' : process) :
  called_remote p p' -> trace_disciplined p -> trace_disciplined p'.
Proof.
  intros [Hs [_ (evs & Ht & Hf)]] Hp. unfold trace_disciplined in *.
  rewrite Hs, Ht.
  destruct (client (self p)) as [c|] eqn:Hc; rewrite <- Hc in Hf.
  - destruct Hp as (pre & post & Hp & Hpre & Hpost).
    exists pre, (post ++ evs)%list. repeat split.
    + rewrite Hp, <- app_assoc. reflexivity.
    + exact Hpre.
    + apply Forall_app. split; [exact Hpost|].
      eapply Forall_impl; [|exact Hf]. cbv beta.
      intros ev (c' & Hc' & Hev). rewrite Hc in Hc'. injection Hc' as <-.
      exact Hev.
  - rewrite (attempts_no_remote p evs Hc Hf), app_nil_r. exact Hp.
Qed.

End Invariants.

(** X4: whatever lines a process started by [main] reads, a stored
    configuration is the one built from the environment, and a server
    that holds a client also holds a configuration (which
    [_test_connection] reads). *)
Theorem configuration_stays_sound {E : Externals} (lines : list string)
  (w : World) :
  config_sound (after (run lines) (main w)).
Proof.
  apply (run_preserves config_sound).
  - intros p r Hp. exact Hp.
  - exact ensure_client_sound.
  - exact called_remote_sound.
  - split; [left; reflexivity | intros H; contradiction H; reflexivity].
Qed.

(** X5: whatever lines a process started by [main] reads, its events
    come in one order: looks at the environment and constructor calls
    that raised, then at most one constructor call that returned the
    handle the server holds, then remote calls, all on that handle.
    Every constructor call got the host and the token of the
    environment, and no remote call is made before a handle exists. *)
Theorem events_in_order {E : Externals} (lines : list string) (w : World) :
  trace_disciplined (after (run lines) (main w)).
Proof.
  apply (run_preserves trace_disciplined).
  - intros p r Hp. exact Hp.
  - exact ensure_client_disciplined.
  - exact called_remote_disciplined.
  - constructor.
Qed.

Section Connected.

Context {E : Externals}.

Local Open Scope py_scope.

(** ** Tool calls on a server that holds a client *)

Lemma call_tool_connected (params fields : list (string * json)) (name : string)
  (request_id : json) (p : process) (c : WorkspaceClient)
  (cfg : DatabricksConfig) :
  client (self p) = Some c -> config (self p) = Some cfg ->
  name_of params = JStr name -> arguments_of params = JObj fields ->
  is_known_tool name = true ->
  _handle_call_tool (JObj params) request_id p
  = match sdk_try c (remote_call_of name fields) (world p) with
    | (inl msg, w) =>
        (inr (error_response (id_or 3 request_id) (-32603)
                (failure_prefix name ++ msg)),
         called p c (remote_call_of name fields) w)
    | (inr out, w) =>
        (inr (result_response (id_or 2 request_id)
                (result_text name fields (host cfg) out)),
         called p c (remote_call_of name fields) w)
    end.
Proof.
  intros Hc Hcfg Hn Ha Hk. rewrite call_tool_dict. unfold bind.
  rewrite (ensure_client_present c p Hc), Hn, Ha.
  rewrite (dispatch_known name fields c cfg p Hk Hc Hcfg).
  destruct (sdk_try c _ (world p)) as [[msg | out] w]; reflexivity.
Qed.

Lemma dispatch_not_str (tool_name arguments : json) (p : process) :
  (forall s, tool_name <> JStr s) ->
  dispatch tool_name arguments p
  = (inl (Exn ValueError ("Unknown tool: " ++ py_str tool_name)), p).
Proof.
  intros Hn. destruct tool_name; try reflexivity.
  exfalso. exact (Hn s eq_refl).
Qed.

Lemma takes_arguments_cases (name : string) :
  takes_arguments name = true ->
  name = "databricks_get_cluster" \/ name = "databricks_run_job"
  \/ name = "databricks_get_job_run" \/ name = "databricks_list_workspace".
Proof.
  unfold takes_arguments. intros H.
  repeat (apply orb_true_iff in H; destruct H as [H | H]);
    apply String.eqb_eq in H; tauto.
Qed.

End Connected.

(** X6: on a server that holds a client and a configuration, a call
    of a known tool whose remote call answers makes exactly that one
    remote call, on the handle the server holds, and returns a result
    under the request id (or 2): the answer itself for the five listing
    and inspection tools, and the two fixed texts, with the host of the
    configuration or the job id, for the connection test and the job
    run. *)
Theorem connected_call_result {E : Externals} (params fields : list (string * json))
  (name : string) (request_id : json) (p : process) (c : WorkspaceClient)
  (cfg : DatabricksConfig) (out : string) (w : World) :
  client (self p) = Some c -> config (self p) = Some cfg ->
  name_of params = JStr name -> arguments_of params = JObj fields ->
  is_known_tool name = true ->
  sdk_try c (remote_call_of name fields) (world p) = (inr out, w) ->
  _handle_call_tool (JObj params) request_id p
  = (inr (result_response (id_or 2 request_id)
            (result_text name fields (host cfg) out)),
     called p c (remote_call_of name fields) w).
Proof.
  intros Hc Hcfg Hn Ha Hk Hsdk.
  rewrite (call_tool_connected params fields name request_id p c cfg
             Hc Hcfg Hn Ha Hk), Hsdk.
  reflexivity.
Qed.

Lemma connected_call_result_witness :
  @_handle_call_tool Demo.configured
    (JObj [("name", JStr "databricks_run_job");
           ("arguments", JObj [("job_id", JInt 12)])])
    (JStr "a") Samples.online
  = (inr (result_response (JStr "a")
            ("Job run started successfully!" ++ nl ++ "Run ID: 42" ++ nl
             ++ "Job ID: 12")),
     called Samples.online 0%nat
       (JobsRunNow (JInt 12) (JObj [])) 2%nat).
Proof.
  apply (@connected_call_result Demo.configured
           [("name", JStr "databricks_run_job");
            ("arguments", JObj [("job_id", JInt 12)])]
           [("job_id", JInt 12)] "databricks_run_job" (JStr "a")
           Samples.online 0%nat (@env_config Demo.configured) "42" 2%nat);
    reflexivity.
Defined.

(** X7: on a server that holds a client and a configuration, a call
    of a known tool whose remote call raises is answered by an error
    with code -32603 whose message is the prefix of that tool followed
    by the message of the exception; the one remote call was made and
    is not repeated. *)
Theorem connected_call_failure {E : Externals} (params fields : list (string * json))
  (name : string) (request_id : json) (p : process) (c : WorkspaceClient)
  (cfg : DatabricksConfig) (msg : string) (w : World) :
  client (self p) = Some c -> config (self p) = Some cfg ->
  name_of params = JStr name -> arguments_of params = JObj fields ->
  is_known_tool name = true ->
  sdk_try c (remote_call_of name fields) (world p) = (inl msg, w) ->
  _handle_call_tool (JObj params) request_id p
  = (inr (error_response (id_or 3 request_id) (-32603)
            (failure_prefix name ++ msg)),
     called p c (remote_call_of name fields) w).
Proof.
  intros Hc Hcfg Hn Ha Hk Hsdk.
  rewrite (call_tool_connected params fields name request_id p c cfg
             Hc Hcfg Hn Ha Hk), Hsdk.
  reflexivity.
Qed.

Lemma connected_call_failure_witness :
  @_handle_call_tool Samples.failing
    (JObj [("name", JStr "databricks_list_workspace")]) (JInt 6)
    Samples.offline
  = (inr (error_response (JInt 6) (-32603)
            "Error listing workspace: connection refused"),
     called Samples.offline 0%nat
       (WorkspaceList (JStr "/")) 2%nat).
Proof.
  apply (@connected_call_failure Samples.failing
           [("name", JStr "databricks_list_workspace")] []
           "databricks_list_workspace" (JInt 6)
           Samples.offline 0%nat (@env_config Samples.failing)
           "connection refused" 2%nat);
    reflexivity.
Defined.

(** X8: [_run_job] treats every falsy [parameters] ([None], an empty
    dict or list, 0, [False], the empty string) as the empty dict: the
    run is the same as with [{}]. *)
Theorem run_job_falsy_parameters {E : Externals} (job_id parameters : json)
  (p : process) :
  truthy parameters = false ->
  _run_job job_id parameters p = _run_job job_id (JObj []) p.
Proof.
  intros Hf. unfold _run_job, py_or. rewrite Hf. reflexivity.
Qed.

Lemma run_job_falsy_parameters_witness :
  @_run_job Demo.configured (JInt 12) JNull Samples.online
  = @_run_job Demo.configured (JInt 12) (JObj [])
      Samples.online.
Proof.
  apply (@run_job_falsy_parameters Demo.configured). reflexivity.
Defined.

(** X9: when [arguments] is not a dict, the four tools that take
    arguments fail on [arguments.get]: the answer is an error with
    code -32603 and the message of the [AttributeError], and on a server
    that holds a client nothing else happens (no remote call).  The
    three tools that take no arguments never look at [arguments]. *)
Theorem arguments_must_be_dict {E : Externals} (params : list (string * json))
  (name : string) (request_id : json) (p : process) (c : WorkspaceClient) :
  client (self p) = Some c ->
  name_of params = JStr name ->
  is_known_tool name = true ->
  is_dict (arguments_of params) = false ->
  (takes_arguments name = true ->
   _handle_call_tool (JObj params) request_id p
   = (inr (error_response (id_or 3 request_id) (-32603)
             ("'" ++ py_type_name (arguments_of params)
              ++ "' object has no attribute 'get'")), p)) /\
  (takes_arguments name = false ->
   dispatch (JStr name) (arguments_of params) p
   = dispatch (JStr name) (JObj []) p).
Proof.
  intros Hc Hn Hk Hd. split.
  - intros Ht. rewrite call_tool_dict. unfold bind.
    rewrite (ensure_client_present c p Hc), Hn.
    destruct (arguments_of params); try discriminate Hd;
      destruct (takes_arguments_cases name Ht) as [-> | [-> | [-> | ->]]];
      reflexivity.
  - intros Ht.
    destruct (known_tool_cases name Hk)
      as [-> | [-> | [-> | [-> | [-> | [-> | ->]]]]]];
      try discriminate Ht; reflexivity.
Qed.

Lemma arguments_must_be_dict_witness :
  @_handle_call_tool Demo.configured (JObj Demo.params_bad_arguments)
    (JInt 2) Samples.online
  = (inr (error_response (JInt 2) (-32603)
            "'list' object has no attribute 'get'"),
     Samples.online).
Proof.
  apply (proj1 (@arguments_must_be_dict Demo.configured
                  Demo.params_bad_arguments "databricks_get_cluster" (JInt 2)
                  Samples.online 0%nat
                  eq_refl eq_refl eq_refl eq_refl)).
  reflexivity.
Defined.

(** X10: a [tools/call] request whose params are not an object (for
    instance [null]) gets no response at all: the handler raises again
    while it logs the first error, the loop skips the line, and nothing
    is written or changed; in particular no client is created. *)
Theorem call_without_params_object_is_dropped {E : Externals} (line : string)
  (fields : list (string * json)) (p : process) :
  is_blank line = false ->
  json_loads line = Some (JObj fields) ->
  eq_str (method_of fields) "tools/call" = true ->
  is_dict (params_of fields) = false ->
  handle_line line p = (inr tt, p).
Proof.
  intros Hb Hj Hm Hd.
  rewrite (handle_line_request line fields p Hb Hj).
  rewrite (route_call_tool _ _ _ _ Hm).
  rewrite (call_tool_not_dict _ _ _ Hd). reflexivity.
Qed.

Lemma call_without_params_object_is_dropped_witness :
  @handle_line Demo.configured Samples.line_call_null_params Demo.boot
  = (inr tt, Demo.boot).
Proof.
  apply (@call_without_params_object_is_dropped Demo.configured
           Samples.line_call_null_params
           [("id", JInt 3); ("method", JStr "tools/call"); ("params", JNull)]);
    vm_compute; reflexivity.
Defined.

(** X11: a tool call whose params have no [name] key, or a name that
    is not a string, is answered on a server that holds a client by the
    unknown-tool error, which shows the name as Python prints it
    ([None] for a missing one); no remote call is made. *)
Theorem nameless_call_is_unknown_tool {E : Externals}
  (params : list (string * json)) (request_id : json) (p : process)
  (c : WorkspaceClient) :
  client (self p) = Some c ->
  (forall s, name_of params <> JStr s) ->
  _handle_call_tool (JObj params) request_id p
  = (inr (error_response (id_or 3 request_id) (-32603)
            ("Unknown tool: " ++ py_str (name_of params))), p).
Proof.
  intros Hc Hn. rewrite call_tool_dict. unfold bind.
  rewrite (ensure_client_present c p Hc).
  rewrite (dispatch_not_str _ _ p Hn). reflexivity.
Qed.

Lemma nameless_call_is_unknown_tool_witness :
  @_handle_call_tool Demo.configured (JObj []) (JInt 1)
    Samples.online
  = (inr (error_response (JInt 1) (-32603) "Unknown tool: None"),
     Samples.online).
Proof.
  apply (@nameless_call_is_unknown_tool Demo.configured [] (JInt 1)
           Samples.online 0%nat).
  - reflexivity.
  - intros s. discriminate.
Defined.

Section Output.

Context {E : Externals}.

Local Open Scope py_scope.

(** ** What the loop writes *)

Lemma id_or_not_none (fallback : Z) (request_id : json) :
  is_none (id_or fallback request_id) = false.
Proof. unfold id_or. destruct request_id; reflexivity. Qed.

Lemma py_or_zero_not_none (request_id : json) :
  is_none (py_or request_id (JInt 0)) = false.
Proof.
  unfold py_or. destruct request_id; try reflexivity.
  all: destruct (truthy _); reflexivity.
Qed.

Lemma result_response_well_formed (request_id : json) (text : string) :
  is_none request_id = false ->
  well_formed (result_response request_id text) = true.
Proof.
  intros Hn. unfold well_formed, result_response. cbn. rewrite Hn. reflexivity.
Qed.

Lemma error_response_well_formed (request_id : json) (code : Z)
  (message : string) :
  is_none request_id = false -> code = -32601 \/ code = -32603 ->
  well_formed (error_response request_id code message) = true.
Proof.
  intros Hn Hc. unfold well_formed, error_response. cbn. rewrite Hn.
  destruct Hc as [-> | ->]; reflexivity.
Qed.

Lemma initialize_well_formed (params request_id : json) :
  well_formed (_handle_initialize params request_id) = true.
Proof.
  unfold well_formed, _handle_initialize. cbn.
  fold (id_or 0 request_id). rewrite id_or_not_none. reflexivity.
Qed.

Lemma list_tools_well_formed (params request_id : json) :
  well_formed (_handle_list_tools params request_id) = true.
Proof.
  unfold well_formed, _handle_list_tools. cbn [field assoc_get String.eqb].
  cbn. fold (id_or 1 request_id). rewrite id_or_not_none. reflexivity.
Qed.

Lemma is_request_spec (line : string) :
  is_request line = true ->
  is_blank line = false /\ exists fields, json_loads line = Some (JObj fields).
Proof.
  unfold is_request. intros H. apply andb_prop in H as [Hb Hj].
  apply negb_true_iff in Hb. split; [exact Hb|].
  destruct (json_loads line) as [[| | | | | |fields]|]; try discriminate Hj.
  exists fields. reflexivity.
Qed.

Lemma not_request_skipped (line : string) (p : process) :
  is_request line = false -> handle_line line p = (inr tt, p).
Proof.
  unfold is_request. intros H.
  destruct (is_blank line) eqn:Hb; [apply handle_line_blank, Hb|].
  destruct (json_loads line) as [v|] eqn:Hj; [|apply handle_line_invalid, Hj].
  apply (handle_line_not_dict line v p Hj).
  destruct v; try reflexivity. discriminate H.
Qed.

(** A turn writes nothing, or one well-formed response after the
    handler ran. *)
Lemma handle_line_writes (line : string) (p : process) :
  handle_line line p = (inr tt, p)
  \/ (is_request line = true /\
      exists p' response,
        handle_line line p = (inr tt, wrote p' response) /\
        stdout p' = stdout p /\ well_formed response = true).
Proof.
  destruct (is_request line) eqn:Hr; [|left; apply not_request_skipped, Hr].
  destruct (is_request_spec line Hr) as [Hb [fields Hj]].
  rewrite (handle_line_request line fields p Hb Hj).
  destruct (eq_str (method_of fields) "initialize") eqn:H1.
  { right. split; [reflexivity|]. exists p. eexists.
    rewrite (route_initialize _ _ _ _ H1).
    split; [reflexivity|]. split; [reflexivity | apply initialize_well_formed]. }
  destruct (eq_str (method_of fields) "tools/list") eqn:H2.
  { right. split; [reflexivity|]. exists p. eexists.
    rewrite (route_list_tools _ _ _ _ H2).
    split; [reflexivity|]. split; [reflexivity | apply list_tools_well_formed]. }
  destruct (eq_str (method_of fields) "tools/call") eqn:H3.
  - rewrite (route_call_tool _ _ _ _ H3).
    destruct (is_dict (params_of fields)) eqn:Hd.
    + destruct (params_of fields) as [| | | | | |fs]; try discriminate Hd.
      pose proof (call_tool_stdout (JObj fs) (id_of fields) p) as Hout.
      unfold after in Hout.
      destruct (call_tool_total fs (id_of fields) p)
        as [p' [[result H] | [message H]]]; rewrite H in Hout |- *;
        right; (split; [reflexivity|]); exists p'; eexists;
        (split; [reflexivity|]); (split; [exact Hout|]).
      * apply result_response_well_formed, id_or_not_none.
      * apply error_response_well_formed; [apply id_or_not_none | right; reflexivity].
    + left. rewrite (call_tool_not_dict _ _ _ Hd). reflexivity.
  - right. split; [reflexivity|]. exists p. eexists.
    rewrite route_unknown by (unfold unknown_method; rewrite H1, H2, H3; reflexivity).
    split; [reflexivity|]. split; [reflexivity|].
    apply error_response_well_formed; [apply py_or_zero_not_none | left; reflexivity].
Qed.

(** The output of a run: the old lines, then at most one well-formed
    response per request. *)
Lemma run_output (lines : list string) (p : process) :
  exists new,
    stdout (after (run lines) p) = (stdout p ++ new)%list /\
    Forall (fun r => well_formed r = true) new /\
    (List.length new <= List.length (filter is_request lines))%nat.
Proof.
  revert p. induction lines as [|line rest IH]; intros p.
  { exists []. split; [symmetry; apply app_nil_r|]. split; [constructor | apply le_n]. }
  unfold after. rewrite run_cons. fold (after (run rest) (after (handle_line line) p)).
  destruct (IH (after (handle_line line) p)) as (new & Hout & Hwf & Hlen).
  destruct (handle_line_writes line p)
    as [H | [Hr (p' & response & H & Hsame & Hresp)]].
  - assert (Hp : after (handle_line line) p = p) by (unfold after; rewrite H; reflexivity).
    rewrite Hp in *. exists new. split; [exact Hout|]. split; [exact Hwf|].
    cbn [filter]. destruct (is_request line); cbn [List.length]; lia.
  - assert (Hp : after (handle_line line) p = wrote p' response)
      by (unfold after; rewrite H; reflexivity).
    rewrite Hp in *. exists (response :: new). split.
    + rewrite Hout. cbn [wrote stdout]. rewrite Hsame, <- app_assoc. reflexivity.
    + split; [constructor; assumption|].
      cbn [filter]. rewrite Hr. cbn [List.length]. lia.
Qed.

End Output.


(** X13: the loop only appends to its output, and it writes at most
    one response for each input line that is a request (a line that is
    not blank and is JSON for an object). *)
Theorem output_grows_by_requests {E : Externals} (lines : list string)
  (p : process) :
  exists new,
    stdout (after (run lines) p) = (stdout p ++ new)%list /\
    (List.length new <= List.length (filter is_request lines))%nat.
Proof.
  destruct (run_output lines p) as (new & Hout & _ & Hlen).
  exists new. split; assumption.
Qed.

(** X14: input lines that are blank, that are not JSON, or that are
    JSON for something other than an object leave no mark: the run is
    the same as on the input without them. *)
Theorem junk_lines_are_ignored {E : Externals} (lines : list string)
  (p : process) :
  run lines p = run (filter is_request lines) p.
Proof.
  revert p. induction lines as [|line rest IH]; intros p; [reflexivity|].
  cbn [filter]. destruct (is_request line) eqn:Hr.
  - rewrite !run_cons. apply IH.
  - rewrite run_cons. unfold after.
    rewrite (not_request_skipped line p Hr). apply IH.
Qed.

Section Unconnected.

Context {E : Externals}.

Local Open Scope py_scope.

(** ** Servers that cannot get a client *)

(** A turn on a server without a client and without the SDK. *)
Lemma handle_line_no_sdk (line : string) (p : process) :
  sdk_imported = false -> client (self p) = None ->
  handle_line line p = (inr tt, p)
  \/ exists response, handle_line line p = (inr tt, wrote p response).
Proof.
  intros Hs Hc.
  destruct (handle_line_cases line p)
    as [H | [(fields & response & _ & _ & _ & H) | (fields & _ & _ & _ & H)]].
  - left. exact H.
  - right. exists response. exact H.
  - rewrite H. destruct (is_dict (params_of fields)) eqn:Hd.
    + destruct (params_of fields) as [| | | | | |fs]; try discriminate Hd.
      rewrite (call_tool_no_sdk fs (id_of fields) p Hc Hs).
      right. eexists. reflexivity.
    + rewrite (call_tool_not_dict _ _ _ Hd). left. reflexivity.
Qed.

(** A turn on a server without a client and without credentials. *)
Lemma handle_line_no_credentials (line : string) (p : process) :
  sdk_imported = true -> credentials_set = false -> client (self p) = None ->
  handle_line line p = (inr tt, p)
  \/ (exists response, handle_line line p = (inr tt, wrote p response))
  \/ (exists response,
        handle_line line p = (inr tt, wrote (logged p [EvLoadConfig]) response)).
Proof.
  intros Hs He Hc. unfold credentials_set in He. apply negb_false_iff in He.
  destruct (handle_line_cases line p)
    as [H | [(fields & response & _ & _ & _ & H) | (fields & _ & _ & _ & H)]].
  - left. exact H.
  - right. left. exists response. exact H.
  - rewrite H. destruct (is_dict (params_of fields)) eqn:Hd.
    + destruct (params_of fields) as [| | | | | |fs]; try discriminate Hd.
      rewrite (call_tool_no_credentials fs (id_of fields) p Hc Hs He).
      right. right. eexists. reflexivity.
    + rewrite (call_tool_not_dict _ _ _ Hd). left. reflexivity.
Qed.

Lemma rewrap_raises (prefix : string) (body : M process string) (p p' : process)
  (e : exn) :
  rewrap prefix body p = (inl e, p') -> exn_cls e = RuntimeError.
Proof.
  unfold rewrap, try_except, raise.
  destruct (body p) as [[e0 | out] q]; intros H; inversion H. reflexivity.
Qed.

Lemma get_then_raises (arguments : json) (key : string) (default : json)
  (k : json -> M process string) (p p' : process) (e : exn) :
  (forall v q q' e', k v q = (inl e', q') -> exn_cls e' = RuntimeError) ->
  (x <- lift (py_get arguments key default) ;; k x) p = (inl e, p') ->
  exn_cls e = RuntimeError \/ exn_cls e = AttributeError.
Proof.
  intros Hk. unfold bind, lift.
  destruct arguments; cbn; intros H;
    try (inversion H; right; reflexivity).
  left. exact (Hk _ _ _ _ H).
Qed.

End Unconnected.

(** X15: without the SDK the server is inert: whatever lines it
    reads, it never gets a client or a configuration, never looks at
    the environment, never calls the constructor or the workspace, and
    the world stays as it was. *)
Theorem inert_without_sdk {E : Externals} (lines : list string) (w : World) :
  sdk_imported = false ->
  self (after (run lines) (main w)) = __init__ /\
  world (after (run lines) (main w)) = w /\
  trace (after (run lines) (main w)) = [].
Proof.
  intros Hs.
  assert (H : forall p, client (self p) = None ->
                self (after (run lines) p) = self p /\
                world (after (run lines) p) = world p /\
                trace (after (run lines) p) = trace p).
  { induction lines as [|line rest IH]; intros p Hc; [repeat split|].
    unfold after. rewrite run_cons.
    fold (after (run rest) (after (handle_line line) p)).
    destruct (handle_line_no_sdk line p Hs Hc) as [Hl | [response Hl]];
      unfold after at 2 4 6; rewrite Hl; cbn [snd].
    - exact (IH p Hc).
    - exact (IH (wrote p response) Hc). }
  exact (H (main w) eq_refl).
Qed.

Lemma inert_without_sdk_witness :
  self (@after Demo.without_sdk _
          (run [Demo.line_test_connection; Demo.line_list_jobs]) Demo.boot)
  = __init__ /\
  world (@after Demo.without_sdk _
           (run [Demo.line_test_connection; Demo.line_list_jobs]) Demo.boot)
  = 0%nat /\
  trace (@after Demo.without_sdk _
           (run [Demo.line_test_connection; Demo.line_list_jobs]) Demo.boot)
  = [].
Proof.
  apply (@inert_without_sdk Demo.without_sdk
           [Demo.line_test_connection; Demo.line_list_jobs] 0%nat).
  reflexivity.
Defined.

(** X16: with the SDK but without the host or the token (unset or
    empty), the server never gets a client, whatever lines it reads: it
    only looks at the environment again on each tool call, and never
    calls the constructor or the workspace. *)
Theorem never_connects_without_credentials {E : Externals}
  (lines : list string) (w : World) :
  sdk_imported = true ->
  credentials_set = false ->
  self (after (run lines) (main w)) = __init__ /\
  world (after (run lines) (main w)) = w /\
  Forall (fun ev => ev = EvLoadConfig) (trace (after (run lines) (main w))).
Proof.
  intros Hs He.
  assert (H : forall p, client (self p) = None ->
                Forall (fun ev => ev = EvLoadConfig) (trace p) ->
                self (after (run lines) p) = self p /\
                world (after (run lines) p) = world p /\
                Forall (fun ev => ev = EvLoadConfig)
                  (trace (after (run lines) p))).
  { induction lines as [|line rest IH]; intros p Hc Ht; [repeat split; exact Ht|].
    unfold after. rewrite run_cons.
    fold (after (run rest) (after (handle_line line) p)).
    destruct (handle_line_no_credentials line p Hs He Hc)
      as [Hl | [[response Hl] | [response Hl]]];
      unfold after at 2 4 6; rewrite Hl; cbn [snd].
    - exact (IH _ Hc Ht).
    - exact (IH (wrote p response) Hc Ht).
    - assert (Ht' : Forall (fun ev => ev = EvLoadConfig)
                      (trace (wrote (logged p [EvLoadConfig]) response))).
      { cbn [wrote logged trace]. apply Forall_app. split; [exact Ht|].
        constructor; [reflexivity | constructor]. }
      exact (IH (wrote (logged p [EvLoadConfig]) response) Hc Ht'). }
  exact (H (main w) eq_refl (Forall_nil _)).
Qed.

Lemma never_connects_without_credentials_witness :
  self (@after Samples.with_empty_token _
          (run [Demo.line_test_connection; Demo.line_list_jobs]) Demo.boot)
  = __init__ /\
  world (@after Samples.with_empty_token _
           (run [Demo.line_test_connection; Demo.line_list_jobs]) Demo.boot)
  = 0%nat /\
  Forall (fun ev => ev = EvLoadConfig)
    (trace (@after Samples.with_empty_token _
              (run [Demo.line_test_connection; Demo.line_list_jobs]) Demo.boot)).
Proof.
  apply (@never_connects_without_credentials Samples.with_empty_token
           [Demo.line_test_connection; Demo.line_list_jobs] 0%nat);
    reflexivity.
Defined.

(** X17: the tool list and the tool-call handler agree.  A name that
    [tools/list] advertises is dispatched to its tool, which can only
    fail with the [RuntimeError] of the tool or the [AttributeError] of
    a bad [arguments] value; every other name is rejected as an unknown
    tool, with the name in the message, before anything is done. *)
Theorem advertised_tools_are_dispatched {E : Externals} (name : string)
  (arguments : json) (p : process) :
  (is_advertised name = true ->
   forall e p',
     dispatch (JStr name) arguments p = (inl e, p') ->
     exn_cls e = RuntimeError \/ exn_cls e = AttributeError) /\
  (is_advertised name = false ->
   dispatch (JStr name) arguments p
   = (inl (Exn ValueError ("Unknown tool: " ++ name)), p)).
Proof.
  split.
  - intros Ha e p' H.
    destruct (known_tool_cases name Ha)
      as [-> | [-> | [-> | [-> | [-> | [-> | ->]]]]]].
    + left. exact (rewrap_raises _ _ _ _ _ H).
    + left. exact (rewrap_raises _ _ _ _ _ H).
    + apply (get_then_raises arguments "cluster_id" JNull _get_cluster p p' e);
        [|exact H].
      intros v q q' e' Hq. exact (rewrap_raises _ _ _ _ _ Hq).
    + left. exact (rewrap_raises _ _ _ _ _ H).
    + change (dispatch (JStr "databricks_run_job") arguments p)
        with ((job_id <- lift (py_get arguments "job_id" JNull) ;;
               parameters <- lift (py_get arguments "parameters" JNull) ;;
               _run_job job_id parameters)%py p) in H.
      unfold bind, lift in H.
      destruct arguments; cbn in H;
        try (inversion H; right; reflexivity).
      left. exact (rewrap_raises _ _ _ _ _ H).
    + apply (get_then_raises arguments "run_id" JNull _get_job_run p p' e);
        [|exact H].
      intros v q q' e' Hq. exact (rewrap_raises _ _ _ _ _ Hq).
    + apply (get_then_raises arguments "path" (JStr "/") _list_workspace p p' e);
        [|exact H].
      intros v q q' e' Hq. exact (rewrap_raises _ _ _ _ _ Hq).
  - intros Ha. exact (dispatch_unknown name arguments p Ha).
Qed.

Lemma advertised_tools_are_dispatched_witness :
  (forall e p',
      @dispatch Demo.configured (JStr "databricks_get_cluster") (JArr [])
        Samples.online
      = (inl e, p') ->
      exn_cls e = RuntimeError \/ exn_cls e = AttributeError) /\
  @dispatch Demo.configured (JStr "databricks_delete_cluster") (JObj [])
    Samples.online
  = (inl (Exn ValueError "Unknown tool: databricks_delete_cluster"),
     Samples.online).
Proof.
  split.
  - apply (proj1 (@advertised_tools_are_dispatched Demo.configured
                    "databricks_get_cluster" (JArr []) Samples.online)).
    reflexivity.
  - apply (proj2 (@advertised_tools_are_dispatched Demo.configured
                    "databricks_delete_cluster" (JObj []) Samples.online)).
    reflexivity.
Defined.

(** X18: a tool reads only the arguments its entry in the tool list
    declares: two argument dicts that agree on the declared properties
    of a tool give the same call, whatever else they carry. *)
Theorem undeclared_arguments_are_ignored {E : Externals} (name : string)
  (fields fields' : list (string * json)) (p : process) :
  (forall key, In key (declared_properties name) ->
               assoc_get key fields = assoc_get key fields') ->
  dispatch (JStr name) (JObj fields) p = dispatch (JStr name) (JObj fields') p.
Proof.
  intros Hsame.
  destruct (is_known_tool name) eqn:Hk.
  2:{ rewrite !(dispatch_unknown name _ p Hk). reflexivity. }
  destruct (known_tool_cases name Hk)
    as [-> | [-> | [-> | [-> | [-> | [-> | ->]]]]]]; try reflexivity.
  - change (dispatch (JStr "databricks_get_cluster") (JObj fields) p)
      with (_get_cluster (argument "cluster_id" JNull fields) p).
    change (dispatch (JStr "databricks_get_cluster") (JObj fields') p)
      with (_get_cluster (argument "cluster_id" JNull fields') p).
    unfold argument. rewrite (Hsame "cluster_id"); [reflexivity|].
    left. reflexivity.
  - change (dispatch (JStr "databricks_run_job") (JObj fields) p)
      with (_run_job (argument "job_id" JNull fields)
              (argument "parameters" JNull fields) p).
    change (dispatch (JStr "databricks_run_job") (JObj fields') p)
      with (_run_job (argument "job_id" JNull fields')
              (argument "parameters" JNull fields') p).
    unfold argument.
    rewrite (Hsame "job_id"), (Hsame "parameters"); [reflexivity | |].
    + right. left. reflexivity.
    + left. reflexivity.
  - change (dispatch (JStr "databricks_get_job_run") (JObj fields) p)
      with (_get_job_run (argument "run_id" JNull fields) p).
    change (dispatch (JStr "databricks_get_job_run") (JObj fields') p)
      with (_get_job_run (argument "run_id" JNull fields') p).
    unfold argument. rewrite (Hsame "run_id"); [reflexivity|].
    left. reflexivity.
  - change (dispatch (JStr "databricks_list_workspace") (JObj fields) p)
      with (_list_workspace (argument "path" (JStr "/") fields) p).
    change (dispatch (JStr "databricks_list_workspace") (JObj fields') p)
      with (_list_workspace (argument "path" (JStr "/") fields') p).
    unfold argument. rewrite (Hsame "path"); [reflexivity|].
    left. reflexivity.
Qed.

Lemma undeclared_arguments_are_ignored_witness :
  @dispatch Demo.configured (JStr "databricks_get_cluster")
    (JObj [("cluster_id", JStr "c-1"); ("verbose", JBool true)]) Samples.online
  = @dispatch Demo.configured (JStr "databricks_get_cluster")
      (JObj [("cluster_id", JStr "c-1")]) Samples.online.
Proof.
  apply (@undeclared_arguments_are_ignored Demo.configured).
  intros key [<- | []]. reflexivity.
Defined.
